(** * GPTplot: the transformer-stack diagram script

    A shallow embedding of [simulations/GPTplot.py].  The script is a flat
    sequence of matplotlib calls driven by a few literal lists.  It is
    modelled as a computation that records, in order, every call made on
    [plt] and [ax], and stops at the first Python exception, keeping the
    calls made so far.

    Python values are kept as the script has them: integers are [Z], floats
    are IEEE binary64 ([PrimFloat]), and mixed arithmetic converts the
    integer operand as Python does, raising [OverflowError] when it is too
    large for a float. *)

From Stdlib Require Import ZArith List String Bool Lia.
From Stdlib Require Import PrimFloat FloatOps SpecFloat DecimalString.
Import ListNotations.

Set Warnings "-inexact-float".
Local Open Scope string_scope.
Local Open Scope list_scope.
Local Open Scope Z_scope.

(* ================================================================= *)
(** ** Python values and builtins *)

Module Py.

(** Exceptions the script's own statements can raise. *)
Inductive exn : Type :=
| IndexError
| ZeroDivisionError
| OverflowError.

(** A Python number: [int] or [float]. *)
Inductive num : Type :=
| Int (z : Z)
| Float (f : float).

(** The binary64 nearest to an integer, ties to even; an infinity when the
    integer is beyond the range. *)
Definition nearest (z : Z) : float :=
  SF2Prim (binary_normalize prec emax z 0 false).

(** The least magnitude that rounds beyond the largest finite float:
    halfway between [2^1024 - 2^971] and [2^1024]. *)
Definition float_overflow : Z := 2 ^ 1024 - 2 ^ 970.

(** [float(z)]: raises when the integer is too large to convert. *)
Definition Z2float (z : Z) : exn + float :=
  if Z.abs z <? float_overflow then inr (nearest z) else inl OverflowError.

(** The operand of a float operation, converted if it is an [int]. *)
Definition to_float (n : num) : exn + float :=
  match n with
  | Int z => Z2float z
  | Float f => inr f
  end.

(** A float operation on two operands, the left one converted first. *)
Definition float_op (op : float -> float -> exn + float) (a b : num)
  : exn + num :=
  match to_float a with
  | inl e => inl e
  | inr fa =>
      match to_float b with
      | inl e => inl e
      | inr fb =>
          match op fa fb with
          | inl e => inl e
          | inr f => inr (Float f)
          end
      end
  end.

(** [a + b]: exact on two integers, a float sum otherwise. *)
Definition add (a b : num) : exn + num :=
  match a, b with
  | Int x, Int y => inr (Int (x + y))
  | _, _ => float_op (fun fa fb => inr (fa + fb)%float) a b
  end.

(** [a - b] *)
Definition sub (a b : num) : exn + num :=
  match a, b with
  | Int x, Int y => inr (Int (x - y))
  | _, _ => float_op (fun fa fb => inr (fa - fb)%float) a b
  end.

(** An integer as an unbounded binary number with exponent 0. *)
Definition spec_of_Z (z : Z) : spec_float :=
  match z with
  | Z0 => S754_zero false
  | Zpos p => S754_finite false p 0
  | Zneg p => S754_finite true p 0
  end.

(** The exact quotient of two integers, rounded once to the nearest
    binary64. *)
Definition quotient (x y : Z) : float :=
  SF2Prim (SFdiv prec emax (spec_of_Z x) (spec_of_Z y)).

(** [a / b]: true division, always a float.  Two integers are divided
    exactly and the quotient rounded, which raises when it is beyond the
    range; otherwise the operands are converted and divided as floats. *)
Definition truediv (a b : num) : exn + num :=
  match a, b with
  | Int x, Int y =>
      if y =? 0 then inl ZeroDivisionError
      else if PrimFloat.is_infinity (quotient x y) then inl OverflowError
      else inr (Float (quotient x y))
  | _, _ =>
      float_op (fun fa fb =>
                  if PrimFloat.eqb fb 0%float then inl ZeroDivisionError
                  else inr (fa / fb)%float) a b
  end.

(** [a % b] on integers; Rocq's [Z.modulo] has Python's sign convention. *)
Definition mod_ (a b : Z) : exn + Z :=
  if b =? 0 then inl ZeroDivisionError else inr (a mod b).

(** [len(l)] *)
Definition len {A : Type} (l : list A) : Z := Z.of_nat (List.length l).

(** [l[i]]: a negative index counts from the end. *)
Definition getitem {A : Type} (l : list A) (i : Z) : exn + A :=
  let j := if i <? 0 then i + len l else i in
  if j <? 0 then inl IndexError
  else match nth_error l (Z.to_nat j) with
       | Some x => inr x
       | None => inl IndexError
       end.

(** [l[k:]]: the bound is shifted by [len(l)] when negative, then clipped. *)
Definition slice_from {A : Type} (l : list A) (k : Z) : list A :=
  let k' := if k <? 0 then Z.max 0 (len l + k) else Z.min k (len l) in
  skipn (Z.to_nat k') l.

(** [range(start, stop, step)] for a positive step, by fuel. *)
Fixpoint range_from (fuel : nat) (start step : Z) : list Z :=
  match fuel with
  | O => []
  | S fuel' => start :: range_from fuel' (start + step) step
  end.

(** [range(n)] *)
Definition range (n : Z) : list Z := range_from (Z.to_nat n) 0 1.

(** [range(start, stop, step)], [step > 0]; it has
    [ceil((stop - start) / step)] elements. *)
Definition range3 (start stop step : Z) : list Z :=
  range_from (Z.to_nat ((stop - start + step - 1) / step)) start step.

(** [enumerate(l, start=k)] *)
Fixpoint enumerate_from {A : Type} (k : Z) (l : list A) : list (Z * A) :=
  match l with
  | [] => []
  | x :: l' => (k, x) :: enumerate_from (k + 1) l'
  end.

(** [enumerate(l)] *)
Definition enumerate {A : Type} (l : list A) : list (Z * A) :=
  enumerate_from 0 l.

(** [str(z)] *)
Definition str (z : Z) : string := NilZero.string_of_int (Z.to_int z).

End Py.

Import Py.

Arguments add a b : simpl never.
Arguments sub a b : simpl never.
Arguments truediv a b : simpl never.
Arguments mod_ a b : simpl never.
Arguments getitem {A} l i : simpl never.

(* ================================================================= *)
(** ** The matplotlib calls the script makes *)

Module Mpl.

(** An entry of a colormap's [.colors]. *)
Definition rgb : Type := (float * float * float)%type.

(** A colour argument: a palette entry or a name (['red'], ['none'], ...). *)
Inductive color : Type :=
| RGB (c : rgb)
| Named (name : string).

(** [patches.Rectangle(xy, width, height, **kw)] *)
Record rectangle : Type := Rectangle {
  rect_xy : num * num;
  rect_width : num;
  rect_height : num;
  rect_linestyle : option string;
  rect_linewidth : num;
  rect_edgecolor : color;
  rect_facecolor : color
}.

(** [bbox=dict(facecolor=..., edgecolor=..., boxstyle=...)] *)
Record bbox : Type := Bbox {
  bbox_facecolor : string;
  bbox_edgecolor : string;
  bbox_boxstyle : string
}.

(** Keyword arguments of [ax.text]. *)
Record text_kw : Type := TextKw {
  text_ha : string;
  text_va : string;
  text_fontsize : Z;
  text_fontweight : option string;
  text_color : string;
  text_bbox : option bbox
}.

(** [arrowprops=dict(arrowstyle=..., color=..., lw=...)] *)
Record arrowprops : Type := ArrowProps {
  arrowstyle : string;
  arrow_color : string;
  arrow_lw : num
}.

(** One call on [plt] or [ax]. *)
Inductive call : Type :=
| Subplots (figsize : num * num)
| SetXlim (lo hi : num)
| SetYlim (lo hi : num)
| Axis (arg : string)
| AddPatch (r : rectangle)
| Text (x y : num) (s : string) (kw : text_kw)
| Annotate (s : string) (xy xytext : num * num) (props : arrowprops)
| SetXticks (ticks : list Z)
| SetYticks (ticks : list Z)
| SetYticklabels (labels : list string)
| Grid (b : bool)
| TightLayout
| Show.

End Mpl.

Import Mpl.

(* ================================================================= *)
(** ** The drawing monad *)

(** A computation: the calls it made, and either the exception that
    stopped it or its value. *)
Definition Draw (A : Type) : Type := (list call * (exn + A))%type.

Definition ret {A : Type} (a : A) : Draw A := ([], inr a).

Definition bind {A B : Type} (m : Draw A) (k : A -> Draw B) : Draw B :=
  match m with
  | (out, inl e) => (out, inl e)
  | (out, inr a) =>
      let (out', r) := k a in (out ++ out', r)
  end.

(** A call on the figure or the axes. *)
Definition emit (c : call) : Draw unit := ([c], inr tt).

(** An expression that may raise. *)
Definition lift {A : Type} (r : exn + A) : Draw A := ([], r).

Arguments ret {A} a : simpl never.
Arguments bind {A B} m k : simpl never.
Arguments emit c : simpl never.
Arguments lift {A} r : simpl never.

Declare Scope draw_scope.
Delimit Scope draw_scope with draw.
Notation "x <- m ;; k" := (bind m (fun x => k))
  (at level 61, m at next level, right associativity) : draw_scope.
Notation "m ;; k" := (bind m (fun _ => k))
  (at level 61, right associativity) : draw_scope.
Local Open Scope draw_scope.

(** [for x in l: body] *)
Fixpoint for_each {A : Type} (l : list A) (body : A -> Draw unit) : Draw unit :=
  match l with
  | [] => ret tt
  | x :: l' => body x ;; for_each l' body
  end.

(** The calls a computation made, and how it ended. *)
Definition calls {A : Type} (m : Draw A) : list call := fst m.
Definition outcome {A : Type} (m : Draw A) : exn + A := snd m.

(* ================================================================= *)
(** ** The script *)

Module GPTplot.

(** *** Parameters (lines 8-21) *)

Definition num_layers : Z := 12.

Definition tokens : list string :=
  ["[the]"; "[ e]"; "[iffel]"; "[ tower]"; "[ is]"; "[ located]"; "[ in]"].

Definition hidden_size : Z := 768.

Definition token_positions : list Z := range (len tokens).

Definition accum_is : list string :=
  ["is built high"; "is built high"; "is built high, in Paris";
   "is built high, in Paris"; "is built high, in Paris";
   "is built high, in Paris"].

Definition accum_is_positions : list Z := [5; 6; 7; 8; 9; 10; 11].

Definition accum_in : list string :=
  ["is in?"; "is in?"; "is in?"; "is in Paris"].

Definition accum_in_positions : list Z := [8; 9; 10; 11].

(** *** Right-align the tokens in the context window (lines 23-29)

    The statements read [seq_length] and [tokens] and leave the new
    [tokens] and [start_index]. *)

Definition right_align (seq_length : Z) (tokens : list string)
  : list string * Z :=
  let start_index := seq_length - len tokens in
  if start_index <? 0
  then (slice_from tokens (- seq_length), 0)
  else (tokens, start_index).

(** *** Plot setup (lines 31-35) *)

Definition plot_setup (seq_length num_layers : Z) : Draw unit :=
  emit (Subplots (Int 10, Int 6)) ;;
  hi <- lift (add (Int seq_length) (Float 0.5)) ;;
  emit (SetXlim (Float (-0.5)) hi) ;;
  emit (SetYlim (Float (-0.3)) (Int num_layers)) ;;
  emit (Axis "off").

(** *** Rectangles for each (layer, token) (lines 41-53) *)

Definition draw_rectangle (colors : list rgb) (box_width box_height : num)
    (layer token : Z) : Draw unit :=
  a <- lift (sub (Int 1) box_width) ;;
  dx <- lift (truediv a (Int 2)) ;;
  x <- lift (add (Int token) dx) ;;
  b <- lift (sub (Int 1) box_height) ;;
  dy <- lift (truediv b (Int 2)) ;;
  y <- lift (add (Int layer) dy) ;;
  k <- lift (mod_ layer 12) ;;
  edgecolor <- lift (getitem colors k) ;;
  k' <- lift (mod_ layer 12) ;;
  facecolor <- lift (getitem colors k') ;;
  emit (AddPatch {|
    rect_xy := (x, y);
    rect_width := box_width;
    rect_height := box_height;
    rect_linestyle := None;
    rect_linewidth := Float 0.5;
    rect_edgecolor := RGB edgecolor;
    rect_facecolor := RGB facecolor |}).

Definition draw_rectangles (colors : list rgb) (num_layers seq_length : Z)
    (box_width box_height : num) : Draw unit :=
  for_each (range num_layers) (fun layer =>
    for_each (range seq_length) (fun token =>
      draw_rectangle colors box_width box_height layer token)).

(** *** Token labels under layer 1 (lines 55-67) *)

Definition token_label (x : num) (token : string) : call :=
  Text x (Float 0.3) token
    {| text_ha := "center"; text_va := "top"; text_fontsize := 18;
       text_fontweight := Some "bold"; text_color := "red";
       text_bbox := None |}.

Definition draw_token_labels (tokens : list string) (start_index : Z)
  : Draw unit :=
  for_each (enumerate tokens) (fun '(i, token) =>
    let token_index := start_index + i in
    x <- lift (add (Int token_index) (Float 0.5)) ;;
    emit (token_label x token)).

(** *** Arrows between tokens (lines 69-83) *)

Definition token_arrow (start_index : Z) (y_pos : num) (from_index : Z)
    (it : Z * string) : Draw unit :=
  let '(i, target_token) := it in
  if String.eqb target_token "[the]" then ret tt
  else
    let to_index := start_index + i in
    hx <- lift (add (Int to_index) (Float 0.5)) ;;
    q <- lift (truediv (Int i) (Float 20)) ;;
    hy <- lift (add y_pos q) ;;
    tx <- lift (add (Int from_index) (Float 0.5)) ;;
    q' <- lift (truediv (Int i) (Float 20)) ;;
    ty <- lift (add y_pos q') ;;
    emit (Annotate "" (hx, hy) (tx, ty)
            {| arrowstyle := "->"; arrow_color := "gray";
               arrow_lw := Float 1.5 |}).

Definition draw_token_arrows (num_layers : Z) (tokens : list string)
    (start_index : Z) : Draw unit :=
  for_each (range (num_layers - 1)) (fun layer =>
    y_pos <- lift (add (Float 0.8) (Int layer)) ;;
    let from_index := 0 in
    for_each (enumerate tokens) (token_arrow start_index y_pos from_index)).

(** *** Arrows from one layer to the next (lines 84-92) *)

Definition layer_arrow (layer token : Z) : Draw unit :=
  hx <- lift (add (Int token) (Float 0.5)) ;;
  hy <- lift (add (Int layer) (Float 1.3)) ;;
  tx <- lift (add (Int token) (Float 0.5)) ;;
  ty <- lift (add (Int layer) (Float 0.7)) ;;
  emit (Annotate "" (hx, hy) (tx, ty)
          {| arrowstyle := "->"; arrow_color := "black";
             arrow_lw := Float 1.5 |}).

Definition draw_layer_arrows (num_layers seq_length : Z) : Draw unit :=
  for_each (range num_layers) (fun layer =>
    for_each (range seq_length) (fun token =>
      layer_arrow layer token)).

(** *** Text labels for 'is' tokens (lines 94-105) *)

Definition is_label (y : num) (token : string) : call :=
  Text (Float 4.5) y token
    {| text_ha := "center"; text_va := "top"; text_fontsize := 16;
       text_fontweight := None; text_color := "white";
       text_bbox := Some {| bbox_facecolor := "black";
                            bbox_edgecolor := "none";
                            bbox_boxstyle := "round,pad=0.3" |} |}.

Definition draw_is_labels (accum_is : list string)
    (accum_is_positions : list Z) : Draw unit :=
  for_each (enumerate accum_is) (fun '(i, token) =>
    token_index <- lift (getitem accum_is_positions i) ;;
    y <- lift (add (Int token_index) (Float 1.2)) ;;
    emit (is_label y token)).

(** *** Text labels for 'Paris' tokens (lines 107-118) *)

Definition in_label (y : num) (token : string) : call :=
  Text (Float 6.5) y token
    {| text_ha := "center"; text_va := "top"; text_fontsize := 16;
       text_fontweight := None; text_color := "white";
       text_bbox := Some {| bbox_facecolor := "red";
                            bbox_edgecolor := "none";
                            bbox_boxstyle := "round,pad=0.3" |} |}.

Definition draw_in_labels (accum_in : list string)
    (accum_in_positions : list Z) : Draw unit :=
  for_each (enumerate accum_in) (fun '(i, token) =>
    token_index <- lift (getitem accum_in_positions i) ;;
    y <- lift (add (Int token_index) (Float 0.2)) ;;
    emit (in_label y token)).

(** *** The word '[Paris]', the dashed box and its label (lines 120-152) *)

Definition newline : string := String (Ascii.ascii_of_nat 10) EmptyString.

Definition draw_paris (seq_length : Z) : Draw unit :=
  x <- lift (add (Int seq_length) (Float 0.7)) ;;
  emit (Text x (Float 11.65) " => [Paris]"
          {| text_ha := "center"; text_va := "top"; text_fontsize := 16;
             text_fontweight := Some "bold"; text_color := "red";
             text_bbox := None |}) ;;
  emit (AddPatch {|
    rect_xy := (Float 6.25, Float 0.75);
    rect_width := Float 0.5;
    rect_height := Float 0.5;
    rect_linestyle := Some "--";
    rect_linewidth := Int 2;
    rect_edgecolor := Named "red";
    rect_facecolor := Named "none" |}) ;;
  emit (Text (Float 6.5) (Float 1.2)
          (String.append "Vector" (String.append newline "Maschine"))
          {| text_ha := "center"; text_va := "top"; text_fontsize := 12;
             text_fontweight := None; text_color := "red";
             text_bbox := None |}).

(** *** Ticks, grid and display (lines 154-161) *)

Definition finish (seq_length num_layers : Z) : Draw unit :=
  emit (SetXticks (range3 0 seq_length 4)) ;;
  emit (SetYticks (range3 0 num_layers 1)) ;;
  emit (SetYticklabels
          (map (fun i => String.append "Layer " (str (i + 1)))
               (range num_layers))) ;;
  emit (Grid false) ;;
  emit TightLayout ;;
  emit Show.

(** *** The module body, top to bottom

    [colors] is [plt.cm.tab20.colors], a table of the plotting library. *)

Definition main (colors : list rgb) : Draw unit :=
  let seq_length := len tokens in
  let '(tokens, start_index) := right_align seq_length tokens in
  plot_setup seq_length num_layers ;;
  let box_width := Float 0.8 in
  box_height <- lift (truediv (Float 0.8) (Int 4)) ;;
  draw_rectangles colors num_layers seq_length box_width box_height ;;
  draw_token_labels tokens start_index ;;
  draw_token_arrows num_layers tokens start_index ;;
  draw_layer_arrows num_layers seq_length ;;
  draw_is_labels accum_is accum_is_positions ;;
  draw_in_labels accum_in accum_in_positions ;;
  draw_paris seq_length ;;
  finish seq_length num_layers.

(** matplotlib's [tab20] table, as 8-bit channels over 255. *)
Definition tab20 : list rgb :=
  map (fun '(r, g, b) =>
         ((nearest r / 255)%float, (nearest g / 255)%float,
          (nearest b / 255)%float))
      [(31, 119, 180); (174, 199, 232); (255, 127, 14); (255, 187, 120);
       (44, 160, 44); (152, 223, 138); (214, 39, 40); (255, 152, 150);
       (148, 103, 189); (197, 176, 213); (140, 86, 75); (196, 156, 148);
       (227, 119, 194); (247, 182, 210); (127, 127, 127); (199, 199, 199);
       (188, 189, 34); (219, 219, 141); (23, 190, 207); (158, 218, 229)].

End GPTplot.

Import GPTplot.

(* ================================================================= *)
(** ** Vocabulary of the properties *)

(** An integer that converts to a float. *)
Definition fits_float (z : Z) : Prop := Z.abs z < float_overflow.

(** The float of a number whose integer, if it is one, converts. *)
Definition float_value (n : num) : float :=
  match n with
  | Int z => nearest z
  | Float f => f
  end.

(** The value of [a + b] when no conversion overflows. *)
Definition add_value (a b : num) : num :=
  match a, b with
  | Int x, Int y => Int (x + y)
  | _, _ => Float (float_value a + float_value b)
  end.

(** The last [n] elements of a list. *)
Definition lastn {A : Type} (n : Z) (l : list A) : list A :=
  skipn (List.length l - Z.to_nat n) l.

(** The rectangle the grid loop adds for one (layer, token) pair, for
    float box sizes, given that the palette has an entry at
    [layer % 12]. *)
Definition grid_rectangle (colors : list rgb) (box_width box_height : float)
    (layer token : Z) : call :=
  let c := nth (Z.to_nat (layer mod 12)) colors (0, 0, 0)%float in
  AddPatch {|
    rect_xy :=
      (add_value (Int token) (Float ((nearest 1 - box_width) / nearest 2)),
       add_value (Int layer) (Float ((nearest 1 - box_height) / nearest 2)));
    rect_width := Float box_width;
    rect_height := Float box_height;
    rect_linestyle := None;
    rect_linewidth := Float 0.5;
    rect_edgecolor := RGB c;
    rect_facecolor := RGB c |}.

(** The arrow the token loop draws towards the token at index [i], in a
    layer whose arrows lie at [y_pos] and start at [from_index]. *)
Definition token_arrow_call (start_index : Z) (y_pos : float)
    (from_index i : Z) : call :=
  let y := Float (y_pos + nearest i / 20) in
  Annotate "" (add_value (Int (start_index + i)) (Float 0.5), y)
              (add_value (Int from_index) (Float 0.5), y)
    {| arrowstyle := "->"; arrow_color := "gray"; arrow_lw := Float 1.5 |}.

(** What the token loop draws for one (index, text) pair. *)
Definition token_arrow_calls (start_index : Z) (y_pos : float)
    (from_index : Z) (it : Z * string) : list call :=
  if String.eqb (snd it) "[the]" then []
  else [token_arrow_call start_index y_pos from_index (fst it)].

(** What the token loop draws in one layer: it sets [y_pos = 0.8 + layer]
    and [from_index = 0]. *)
Definition layer_token_arrows (start_index : Z) (toks : list string)
    (layer : Z) : list call :=
  flat_map (token_arrow_calls start_index (0.8 + nearest layer) 0)
           (enumerate toks).

(** The arrow the layer loop draws for one (layer, token) pair. *)
Definition layer_arrow_call (layer token : Z) : call :=
  Annotate ""
    (add_value (Int token) (Float 0.5), add_value (Int layer) (Float 1.3))
    (add_value (Int token) (Float 0.5), add_value (Int layer) (Float 0.7))
    {| arrowstyle := "->"; arrow_color := "black"; arrow_lw := Float 1.5 |}.

Definition is_add_patch (c : call) : bool :=
  match c with AddPatch _ => true | _ => false end.

Definition is_show (c : call) : bool :=
  match c with Show => true | _ => false end.

(** The x coordinate given to [ax.text]. *)
Definition text_x (c : call) : option num :=
  match c with Text x _ _ _ => Some x | _ => None end.

(** Where an arrow starts ([xytext]) and where its head is ([xy]). *)
Definition arrow_tail_x (c : call) : option num :=
  match c with Annotate _ _ (x, _) _ => Some x | _ => None end.

Definition arrow_head_y (c : call) : option num :=
  match c with Annotate _ (_, y) _ _ => Some y | _ => None end.

Definition arrow_head_x (c : call) : option num :=
  match c with Annotate _ (x, _) _ _ => Some x | _ => None end.

Definition arrow_ends (c : call) : option ((num * num) * (num * num)) :=
  match c with Annotate _ xy xytext _ => Some (xy, xytext) | _ => None end.

(** The edge and face colour of an added patch. *)
Definition patch_colors (c : call) : option (color * color) :=
  match c with
  | AddPatch r => Some (rect_edgecolor r, rect_facecolor r)
  | _ => None
  end.

(** A computation none of whose calls satisfies [p]. *)
Definition makes_no (p : call -> bool) {A : Type} (m : Draw A) : Prop :=
  filter p (calls m) = [].

(** The statements of the script that follow the plot setup, with
    [seq_length = len(tokens)] and the outcome of the right alignment,
    [start_index = 0], filled in. *)
Definition after_setup (colors : list rgb) : Draw unit :=
  box_height <- lift (truediv (Float 0.8) (Int 4)) ;;
  draw_rectangles colors num_layers (len tokens) (Float 0.8) box_height ;;
  draw_token_labels tokens 0 ;;
  draw_token_arrows num_layers tokens 0 ;;
  draw_layer_arrows num_layers (len tokens) ;;
  draw_is_labels accum_is accum_is_positions ;;
  draw_in_labels accum_in accum_in_positions ;;
  draw_paris (len tokens) ;;
  finish (len tokens) num_layers.

(* ================================================================= *)
(** ** Running computations *)

Section DrawLemmas.

Context {A B : Type}.

Lemma bind_ok (m : Draw A) (k : A -> Draw B) out a :
  m = (out, inr a) ->
  bind m k = (out ++ fst (k a), snd (k a)).
Proof.
  intros ->. unfold bind. now destruct (k a).
Qed.

Lemma bind_raise (m : Draw A) (k : A -> Draw B) out e :
  m = (out, inl e) -> bind m k = (out, inl e).
Proof.
  now intros ->.
Qed.

Lemma bind_lift_ok (a : A) (k : A -> Draw B) :
  bind (lift (inr a)) k = k a.
Proof.
  unfold bind, lift. now destruct (k a).
Qed.

Lemma bind_lift_raise (e : exn) (k : A -> Draw B) :
  bind (lift (inl e)) k = ([], inl e).
Proof. reflexivity. Qed.

Lemma calls_bind (m : Draw A) (k : A -> Draw B) :
  calls (bind m k)
  = calls m ++ match outcome m with
               | inr a => calls (k a)
               | inl _ => []
               end.
Proof.
  unfold calls, outcome, bind.
  destruct m as [out [e|a]]; simpl.
  - now rewrite app_nil_r.
  - now destruct (k a).
Qed.

Lemma outcome_bind (m : Draw A) (k : A -> Draw B) :
  outcome (bind m k)
  = match outcome m with
    | inr a => outcome (k a)
    | inl e => inl e
    end.
Proof.
  unfold outcome, bind.
  destruct m as [out [e|a]]; simpl.
  - reflexivity.
  - now destruct (k a).
Qed.

End DrawLemmas.

Lemma outcome_lift {A : Type} (r : exn + A) : outcome (lift r) = r.
Proof. reflexivity. Qed.

Lemma calls_lift {A : Type} (r : exn + A) : calls (lift r) = [].
Proof. reflexivity. Qed.

Lemma run_eq {A : Type} (m : Draw A) : m = (calls m, outcome m).
Proof. now destruct m. Qed.

(** A loop whose every iteration succeeds makes the calls of its
    iterations, in order. *)
Lemma for_each_ok {A : Type} (f : A -> list call) (body : A -> Draw unit) :
  forall l : list A,
    (forall x, In x l -> body x = (f x, inr tt)) ->
    for_each l body = (flat_map f l, inr tt).
Proof.
  induction l as [|x l IH]; intros Hbody; simpl.
  - reflexivity.
  - rewrite (bind_ok _ _ (f x) tt) by (apply Hbody; now left).
    cbv beta.
    rewrite IH by (intros y Hy; apply Hbody; now right).
    reflexivity.
Qed.

(** A loop stops at its first failing iteration, with the calls made up to
    there. *)
Lemma for_each_raise {A : Type} (f : A -> list call) (body : A -> Draw unit)
    (l1 : list A) (x : A) (l2 : list A) out e :
  (forall y, In y l1 -> body y = (f y, inr tt)) ->
  body x = (out, inl e) ->
  for_each (l1 ++ x :: l2) body = (flat_map f l1 ++ out, inl e).
Proof.
  intros Hok Hraise.
  induction l1 as [|y l1 IH]; simpl.
  - now rewrite (bind_raise _ _ out e).
  - rewrite (bind_ok _ _ (f y) tt) by (apply Hok; now left).
    cbv beta.
    rewrite IH by (intros z Hz; apply Hok; now right).
    simpl. now rewrite app_assoc.
Qed.

(** A property of every call of every iteration holds of the loop's calls,
    whether or not the loop is cut short. *)
Lemma for_each_Forall {A : Type} (P : call -> Prop) (body : A -> Draw unit) :
  forall l : list A,
    (forall x, In x l -> Forall P (calls (body x))) ->
    Forall P (calls (for_each l body)).
Proof.
  induction l as [|x l IH]; intros Hbody; simpl.
  - constructor.
  - rewrite calls_bind. apply Forall_app. split.
    + apply Hbody. now left.
    + destruct (outcome (body x)); [constructor|].
      apply IH. intros y Hy. apply Hbody. now right.
Qed.

Lemma flat_map_single {A B : Type} (g : A -> B) (l : list A) :
  flat_map (fun x => [g x]) l = map g l.
Proof.
  induction l as [|x l IH]; simpl; congruence.
Qed.

Lemma length_flat_map_const {A B : Type} (f : A -> list B) (n : nat) :
  forall l : list A,
    (forall x, In x l -> List.length (f x) = n) ->
    List.length (flat_map f l) = (List.length l * n)%nat.
Proof.
  induction l as [|x l IH]; intros Hf; simpl.
  - reflexivity.
  - rewrite length_app, Hf, IH; auto with datatypes.
Qed.

Lemma nth_in_firstn {A : Type} (d : A) :
  forall (n k : nat) (l : list A),
    (k < n)%nat -> (k < List.length l)%nat -> In (nth k l d) (firstn n l).
Proof.
  induction n as [|n IH]; intros k l Hn Hl; [lia|].
  destruct l as [|x l]; simpl in *; [lia|].
  destruct k as [|k]; [now left | right].
  apply IH; lia.
Qed.

(** *** [range], [enumerate], [l[i]] *)

Lemma length_range_from fuel start step :
  List.length (range_from fuel start step) = fuel.
Proof.
  revert start; induction fuel as [|n IH]; intros start; simpl; congruence.
Qed.

Lemma length_range n : List.length (range n) = Z.to_nat n.
Proof. apply length_range_from. Qed.

Lemma in_range_from_step fuel : forall start step x,
  In x (range_from fuel start step)
  <-> exists k : nat, (k < fuel)%nat /\ x = start + Z.of_nat k * step.
Proof.
  induction fuel as [|n IH]; intros start step x; simpl.
  - split; [tauto | intros [k [Hk _]]; lia].
  - rewrite IH. split.
    + intros [<- | [k [Hk ->]]].
      * exists 0%nat. split; lia.
      * exists (S k). split; lia.
    + intros [[|k] [Hk ->]].
      * left. lia.
      * right. exists k. split; lia.
Qed.

(** [range(n)] holds 0, 1, ..., n - 1. *)
Lemma in_range_iff n x : In x (range n) <-> 0 <= x < n.
Proof.
  unfold range. rewrite in_range_from_step. split.
  - intros [k [Hk ->]]. lia.
  - intros Hx. exists (Z.to_nat x). lia.
Qed.

Lemma nth_error_range_from fuel : forall start (k : nat),
  nth_error (range_from fuel start 1) k
  = if (k <? fuel)%nat then Some (start + Z.of_nat k) else None.
Proof.
  induction fuel as [|n IH]; intros start k; simpl.
  - now destruct k.
  - destruct k as [|k]; simpl.
    + now rewrite Z.add_0_r.
    + rewrite IH. change (S k <? S n)%nat with (k <? n)%nat.
      destruct (k <? n)%nat; [|reflexivity].
      f_equal. lia.
Qed.

Lemma range_from_app a b start :
  range_from (a + b) start 1
  = range_from a start 1 ++ range_from b (start + Z.of_nat a) 1.
Proof.
  revert start. induction a as [|a IH]; intros start; simpl.
  - now rewrite Z.add_0_r.
  - rewrite IH. do 3 f_equal. lia.
Qed.

(** [range(n)] up to and past an element [k] of it. *)
Lemma range_split n k :
  0 <= k < n ->
  range n = range k ++ k :: range_from (Z.to_nat (n - k - 1)) (k + 1) 1.
Proof.
  intros Hk. unfold range.
  replace (Z.to_nat n) with (Z.to_nat k + S (Z.to_nat (n - k - 1)))%nat by lia.
  rewrite range_from_app. simpl. rewrite Z2Nat.id by lia. reflexivity.
Qed.

Lemma range3_unit_step n : range3 0 n 1 = range n.
Proof.
  unfold range3, range.
  replace (n - 0 + 1 - 1) with n by lia.
  now rewrite Z.div_1_r.
Qed.

Lemma len_nonneg {A : Type} (l : list A) : 0 <= len l.
Proof. unfold len. lia. Qed.

Lemma len_app {A : Type} (l l' : list A) : len (l ++ l') = len l + len l'.
Proof. unfold len. rewrite length_app. lia. Qed.

Lemma in_enumerate_from {A : Type} (l : list A) :
  forall k i x, In (i, x) (enumerate_from k l) -> k <= i < k + len l.
Proof.
  induction l as [|y l IH]; intros k i x; simpl.
  - tauto.
  - intros [Heq | Hin].
    + inversion Heq; subst. unfold len. simpl List.length. lia.
    + apply IH in Hin. unfold len in *. simpl List.length. lia.
Qed.

Lemma in_enumerate {A : Type} (l : list A) i x :
  In (i, x) (enumerate l) -> 0 <= i < len l.
Proof.
  intros Hin. apply in_enumerate_from in Hin. lia.
Qed.

Lemma nth_error_enumerate_from {A : Type} (l : list A) :
  forall (s : Z) (k : nat),
    nth_error (enumerate_from s l) k
    = option_map (fun x => (s + Z.of_nat k, x)) (nth_error l k).
Proof.
  induction l as [|x l IH]; intros s k.
  - now destruct k.
  - destruct k as [|k]; simpl.
    + now rewrite Z.add_0_r.
    + rewrite IH. destruct (nth_error l k); simpl; [|reflexivity].
      do 2 f_equal. lia.
Qed.

Lemma length_enumerate {A : Type} (l : list A) :
  List.length (enumerate l) = List.length l.
Proof.
  unfold enumerate. generalize 0.
  induction l as [|x l IH]; intros s; simpl; congruence.
Qed.

(** Indexing just past a prefix yields the head of the rest, or raises
    when there is no rest. *)
Lemma getitem_after {A : Type} (pre post : list A) :
  getitem (pre ++ post) (len pre) =
  match post with
  | [] => inl IndexError
  | x :: _ => inr x
  end.
Proof.
  unfold getitem.
  pose proof (len_nonneg pre) as Hpre.
  destruct (Z.ltb_spec (len pre) 0) as [Hneg|_]; [lia|].
  destruct (Z.ltb_spec (len pre) 0) as [Hneg|_]; [lia|].
  unfold len. rewrite Nat2Z.id, nth_error_app2, Nat.sub_diag by lia.
  now destruct post.
Qed.

(** An index in bounds is found. *)
Lemma getitem_in_bounds {A : Type} (d : A) (l : list A) (i : Z) :
  0 <= i < len l -> getitem l i = inr (nth (Z.to_nat i) l d).
Proof.
  intros Hi. unfold getitem.
  destruct (Z.ltb_spec i 0) as [Hneg|_]; [lia|].
  destruct (Z.ltb_spec i 0) as [Hneg|_]; [lia|].
  destruct (nth_error l (Z.to_nat i)) as [x|] eqn:Hnth.
  - now rewrite (nth_error_nth _ _ d Hnth).
  - apply nth_error_None in Hnth. unfold len in Hi. lia.
Qed.

Lemma getitem_past_end {A : Type} (l : list A) (i : Z) :
  len l <= i -> getitem l i = inl IndexError.
Proof.
  intros Hi. unfold getitem. pose proof (len_nonneg l).
  destruct (Z.ltb_spec i 0) as [Hneg|_]; [lia|].
  destruct (Z.ltb_spec i 0) as [Hneg|_]; [lia|].
  destruct (nth_error l (Z.to_nat i)) as [x|] eqn:Hnth; [|reflexivity].
  assert (Hlt : (Z.to_nat i < List.length l)%nat)
    by (apply nth_error_Some; now rewrite Hnth).
  unfold len in *. lia.
Qed.

(** *** Arithmetic within the range of floats *)

(** The bound is where rounding leaves the finite floats. *)
Example float_overflow_is_the_bound :
  PrimFloat.is_infinity (nearest (float_overflow - 1)) = false
  /\ PrimFloat.is_infinity (nearest float_overflow) = true
  /\ PrimFloat.is_infinity (nearest (- (float_overflow - 1))) = false
  /\ PrimFloat.is_infinity (nearest (- float_overflow)) = true.
Proof. now vm_compute. Qed.

Lemma float_overflow_large : 2 ^ 64 < float_overflow.
Proof. reflexivity. Qed.

Lemma Z2float_fits z : fits_float z -> Z2float z = inr (nearest z).
Proof.
  unfold fits_float, Z2float. intros Hz.
  now destruct (Z.ltb_spec (Z.abs z) float_overflow) as [_|Hge]; [|lia].
Qed.

Lemma Z2float_overflow z : float_overflow <= Z.abs z ->
  Z2float z = inl OverflowError.
Proof.
  unfold Z2float. intros Hz.
  now destruct (Z.ltb_spec (Z.abs z) float_overflow) as [Hlt|_]; [lia|].
Qed.

(** [z + f] and [f + z] for an integer that converts. *)
Lemma add_int_float z f :
  fits_float z -> add (Int z) (Float f) = inr (add_value (Int z) (Float f)).
Proof.
  intros Hz. unfold add, float_op, to_float. now rewrite Z2float_fits.
Qed.

Lemma add_float_int f z :
  fits_float z -> add (Float f) (Int z) = inr (add_value (Float f) (Int z)).
Proof.
  intros Hz. unfold add, float_op, to_float. now rewrite Z2float_fits.
Qed.

Lemma add_float_float f g : add (Float f) (Float g) = inr (Float (f + g)).
Proof. reflexivity. Qed.

(** [z / 20.] for an integer that converts. *)
Lemma truediv_int_20 z :
  fits_float z ->
  truediv (Int z) (Float 20) = inr (Float (nearest z / 20)).
Proof.
  intros Hz. unfold truediv, float_op, to_float. now rewrite Z2float_fits.
Qed.

(** [(1 - w) / 2] for a float [w]. *)
Lemma sub_1_float w : sub (Int 1) (Float w) = inr (Float (nearest 1 - w)).
Proof. reflexivity. Qed.

Lemma truediv_float_2 f :
  truediv (Float f) (Int 2) = inr (Float (f / nearest 2)).
Proof. reflexivity. Qed.

Lemma fits_float_small z : Z.abs z <= 2 ^ 64 -> fits_float z.
Proof.
  unfold fits_float. pose proof float_overflow_large. lia.
Qed.

(* ================================================================= *)
(** ** The annotation callouts *)

(** The loop shared by the two callouts: walk the labels with their index,
    look the index up in the position list, add the offset, draw. *)
Lemma label_loop_run (offset : float) (mk : num -> string -> call) :
  forall (labels : list string) (pre post : list Z),
    Forall fits_float post ->
    for_each (enumerate_from (len pre) labels)
      (fun '(i, token) =>
         token_index <- lift (getitem (pre ++ post) i) ;;
         y <- lift (add (Int token_index) (Float offset)) ;;
         emit (mk y token))
    = (map (fun '(p, t) => mk (add_value (Int p) (Float offset)) t)
           (combine post labels),
       if len post <? len labels then inl IndexError else inr tt).
Proof.
  induction labels as [|t ls IH]; intros pre post Hfits.
  - simpl. rewrite combine_nil.
    pose proof (len_nonneg post).
    now destruct (Z.ltb_spec (len post) (len (@nil string))) as [H0|_];
      [unfold len in *; simpl in *; lia|].
  - simpl enumerate_from. simpl for_each.
    destruct post as [|p ps].
    + rewrite (bind_raise _ _ [] IndexError).
      * reflexivity.
      * now rewrite getitem_after.
    + inversion Hfits as [|p' ps' Hp Hps]; subst.
      rewrite (bind_ok _ _ [mk (add_value (Int p) (Float offset)) t] tt).
      * cbv beta.
        replace (pre ++ p :: ps) with ((pre ++ [p]) ++ ps)
          by (now rewrite <- app_assoc).
        replace (len pre + 1) with (len (pre ++ [p]))
          by (rewrite len_app; reflexivity).
        rewrite IH by assumption. simpl.
        replace (len (p :: ps) <? len (t :: ls)) with (len ps <? len ls);
          [reflexivity|].
        unfold len; simpl List.length.
        destruct (Z.ltb_spec (Z.of_nat (List.length ps))
                             (Z.of_nat (List.length ls)));
          destruct (Z.ltb_spec (Z.of_nat (S (List.length ps)))
                               (Z.of_nat (S (List.length ls)))); lia.
      * rewrite getitem_after, bind_lift_ok. cbv beta.
        rewrite add_int_float by assumption.
        now rewrite bind_lift_ok.
Qed.

(** The calls and the outcome of the 'is' callout loop, for positions
    that convert to floats. *)
Lemma draw_is_labels_run labels positions :
  Forall fits_float positions ->
  draw_is_labels labels positions
  = (map (fun '(p, t) => is_label (add_value (Int p) (Float 1.2)) t)
         (combine positions labels),
     if len positions <? len labels then inl IndexError else inr tt).
Proof.
  exact (label_loop_run 1.2 is_label labels [] positions).
Qed.

(** The calls and the outcome of the 'in' callout loop, for positions
    that convert to floats. *)
Lemma draw_in_labels_run labels positions :
  Forall fits_float positions ->
  draw_in_labels labels positions
  = (map (fun '(p, t) => in_label (add_value (Int p) (Float 0.2)) t)
         (combine positions labels),
     if len positions <? len labels then inl IndexError else inr tt).
Proof.
  exact (label_loop_run 0.2 in_label labels [] positions).
Qed.

Lemma accum_is_positions_fit : Forall fits_float accum_is_positions.
Proof. repeat constructor. Qed.

Lemma accum_in_positions_fit : Forall fits_float accum_in_positions.
Proof. repeat constructor. Qed.

(** C1, as stated, fails: the 'is' callout has seven positions for six
    labels. *)
Lemma annotation_lengths_differ :
  ~ (len accum_is_positions = len accum_is
     /\ len accum_in_positions = len accum_in).
Proof.
  intros [His _]. discriminate His.
Qed.

(** C1 (amended): the 'in' callout's position list has the length of its
    text list (4); the 'is' callout's position list is one entry longer than
    its text list (7 against 6), so every label has a position. *)
Theorem annotation_lengths :
  len accum_in_positions = len accum_in
  /\ len accum_in = 4
  /\ len accum_is_positions = len accum_is + 1
  /\ len accum_is = 6.
Proof.
  repeat split.
Qed.

(** C2, as stated, fails: the script's own 'is' lists have mismatched
    lengths, the position list being the longer, and the loop raises
    nothing. *)
Lemma longer_positions_do_not_raise :
  ~ (len accum_is_positions <> len accum_is ->
     len accum_is < len accum_is_positions ->
     exists e, outcome (draw_is_labels accum_is accum_is_positions) = inl e).
Proof.
  intros Hraise.
  destruct Hraise as [e He]; [discriminate | reflexivity | discriminate He].
Qed.

(** C2 (amended): for positions that are integers a float can hold, each
    callout loop raises [IndexError] exactly when its position list is
    shorter than its label list, at the first index that has no position,
    after drawing the labels that do have one; a position list that is as
    long or longer raises nothing, and the positions beyond the labels are
    ignored. *)
Theorem annotation_loop_index_error :
  forall (labels : list string) (positions : list Z),
    Forall fits_float positions ->
    draw_is_labels labels positions
    = (map (fun '(p, t) => is_label (add_value (Int p) (Float 1.2)) t)
           (combine positions labels),
       if len positions <? len labels then inl IndexError else inr tt)
    /\ draw_in_labels labels positions
    = (map (fun '(p, t) => in_label (add_value (Int p) (Float 0.2)) t)
           (combine positions labels),
       if len positions <? len labels then inl IndexError else inr tt).
Proof.
  intros labels positions Hfits. split.
  - now apply draw_is_labels_run.
  - now apply draw_in_labels_run.
Qed.

(** Three labels with two positions: two labels are drawn, then the
    third index raises. *)
Lemma annotation_loop_index_error_witness :
  Forall fits_float [5; 6]
  /\ draw_is_labels ["a"; "b"; "c"] [5; 6]
     = ([is_label (add_value (Int 5) (Float 1.2)) "a";
         is_label (add_value (Int 6) (Float 1.2)) "b"],
        inl IndexError).
Proof.
  assert (Hfits : Forall fits_float [5; 6]) by (repeat constructor).
  split; [exact Hfits|].
  exact (proj1 (annotation_loop_index_error ["a"; "b"; "c"] [5; 6] Hfits)).
Defined.

(* ================================================================= *)
(** ** Right alignment *)

Lemma right_align_fits seq_length (toks : list string) :
  len toks <= seq_length ->
  right_align seq_length toks = (toks, seq_length - len toks).
Proof.
  intros Hfit. unfold right_align.
  now destruct (Z.ltb_spec (seq_length - len toks) 0) as [Hneg|_]; [lia|].
Qed.

Lemma right_align_truncates seq_length (toks : list string) :
  0 < seq_length < len toks ->
  right_align seq_length toks = (lastn seq_length toks, 0).
Proof.
  intros Hlong. unfold right_align, slice_from, lastn.
  destruct (Z.ltb_spec (seq_length - len toks) 0) as [_|Hge]; [|lia].
  destruct (Z.ltb_spec (- seq_length) 0) as [_|Hge]; [|lia].
  do 2 f_equal. unfold len in *. lia.
Qed.

Lemma length_lastn {A : Type} (n : Z) (l : list A) :
  0 <= n <= len l -> len (lastn n l) = n.
Proof.
  intros Hn. unfold lastn, len in *. rewrite length_skipn. lia.
Qed.

Lemma skipn_clip {A : Type} (l : list A) (k : Z) :
  0 <= k -> skipn (Z.to_nat (Z.min k (len l))) l = skipn (Z.to_nat k) l.
Proof.
  intros Hk. unfold len.
  destruct (Z.le_gt_cases k (Z.of_nat (List.length l))) as [Hle|Hgt].
  - now rewrite Z.min_l.
  - rewrite Z.min_r by lia. rewrite Nat2Z.id.
    rewrite skipn_all. symmetry. apply skipn_all2. lia.
Qed.

Lemma right_align_nonpositive seq_length (toks : list string) :
  seq_length <= 0 ->
  right_align seq_length toks = (skipn (Z.to_nat (- seq_length)) toks, 0).
Proof.
  intros Hsl. unfold right_align.
  pose proof (len_nonneg toks) as Hlen.
  destruct (Z.ltb_spec (seq_length - len toks) 0) as [Hneg|Hge].
  - unfold slice_from.
    destruct (Z.ltb_spec (- seq_length) 0) as [Hlt|_]; [lia|].
    now rewrite skipn_clip by lia.
  - assert (Hsl0 : seq_length = 0) by lia.
    assert (Hlen0 : len toks = 0) by lia.
    subst seq_length. rewrite Hlen0.
    destruct toks; [reflexivity | discriminate Hlen0].
Qed.

(** The label loop, for a start index and a token count that keep every
    column within the range of floats. *)
Lemma draw_token_labels_run (toks : list string) start_index :
  fits_float start_index ->
  fits_float (start_index + len toks) ->
  draw_token_labels toks start_index
  = (map (fun '(i, t) =>
            token_label (add_value (Int (start_index + i)) (Float 0.5)) t)
         (enumerate toks),
     inr tt).
Proof.
  intros Hlo Hhi. unfold draw_token_labels.
  rewrite (for_each_ok
             (fun '(i, t) =>
                [token_label (add_value (Int (start_index + i)) (Float 0.5))
                             t])).
  - f_equal. rewrite <- flat_map_single. apply flat_map_ext. now intros [i t].
  - intros [i t] Hin. apply in_enumerate in Hin.
    rewrite add_int_float by (unfold fits_float in *; lia).
    now rewrite bind_lift_ok.
Qed.

Lemma nth_error_draw_token_labels (toks : list string) start_index k :
  fits_float start_index ->
  fits_float (start_index + len toks) ->
  nth_error (calls (draw_token_labels toks start_index)) k
  = option_map
      (token_label (add_value (Int (start_index + Z.of_nat k)) (Float 0.5)))
      (nth_error toks k).
Proof.
  intros Hlo Hhi.
  unfold calls. rewrite draw_token_labels_run by assumption. unfold fst.
  rewrite nth_error_map. unfold enumerate.
  rewrite nth_error_enumerate_from.
  now destruct (nth_error toks k).
Qed.


(** C6: with [seq_length = len(tokens)], whatever the token list,
    [start_index] is 0, the guard [start_index < 0] is false, and the
    tokens are left as they are. *)
Theorem truncation_unreachable :
  forall toks : list string,
    len toks - len toks = 0
    /\ (len toks - len toks <? 0) = false
    /\ right_align (len toks) toks = (toks, 0).
Proof.
  intros toks. rewrite Z.sub_diag. repeat split.
  rewrite right_align_fits by lia. now rewrite Z.sub_diag.
Qed.

(* ================================================================= *)
(** ** Arrows between tokens *)

(** One iteration of the inner loop, for a target column and an index
    that convert: nothing for the text ['[the]'], one arrow otherwise. *)
Lemma token_arrow_run start_index y_pos from_index (it : Z * string) :
  fits_float (start_index + fst it) ->
  fits_float (fst it) ->
  fits_float from_index ->
  token_arrow start_index (Float y_pos) from_index it
  = (token_arrow_calls start_index y_pos from_index it, inr tt).
Proof.
  destruct it as [i target_token]. simpl fst. intros Hto Hi Hfrom.
  unfold token_arrow, token_arrow_calls. simpl snd.
  destruct (String.eqb target_token "[the]"); [reflexivity|].
  rewrite !add_int_float, !truediv_int_20 by assumption.
  repeat progress (rewrite ?bind_lift_ok, ?add_float_float; cbv beta).
  reflexivity.
Qed.

(** The hypotheses under which no conversion of the token loop
    overflows: the layers, the token count and the columns
    [start_index .. start_index + len(tokens)] are within the range. *)
Lemma draw_token_arrows_run num_layers (toks : list string) start_index :
  num_layers <= float_overflow ->
  len toks <= float_overflow ->
  fits_float start_index ->
  fits_float (start_index + len toks) ->
  draw_token_arrows num_layers toks start_index
  = (flat_map (layer_token_arrows start_index toks) (range (num_layers - 1)),
     inr tt).
Proof.
  intros Hlayers Hlen Hlo Hhi. unfold draw_token_arrows.
  apply for_each_ok. intros layer Hlayer. apply in_range_iff in Hlayer.
  rewrite add_float_int, bind_lift_ok by (unfold fits_float; lia).
  cbv beta zeta.
  apply for_each_ok. intros [i t] Hin. apply in_enumerate in Hin.
  apply token_arrow_run; unfold fits_float in *; simpl fst; lia.
Qed.

Lemma token_arrow_calls_skip start_index y_pos from_index i
    (target_token : string) :
  token_arrow_calls start_index y_pos from_index (i, target_token) = []
  <-> target_token = "[the]".
Proof.
  unfold token_arrow_calls. simpl snd.
  destruct (String.eqb_spec target_token "[the]") as [Heq|Hne].
  - tauto.
  - split; [discriminate | contradiction].
Qed.

(** The arrows of one layer number as many as the tokens that are not
    ['[the]']. *)
Lemma length_token_arrows_layer start_index y_pos from_index
    (toks : list string) :
  forall k,
    List.length (flat_map (token_arrow_calls start_index y_pos from_index)
                          (enumerate_from k toks))
    = List.length (filter (fun t => negb (String.eqb t "[the]")) toks).
Proof.
  induction toks as [|t ts IH]; intros k; simpl.
  - reflexivity.
  - rewrite length_app, IH. unfold token_arrow_calls. simpl snd.
    now destruct (String.eqb t "[the]").
Qed.

(** Over all layers: [num_layers - 1] times the tokens other than
    ['[the]']. *)
Lemma length_token_arrows num_layers (toks : list string) start_index :
  List.length (flat_map (layer_token_arrows start_index toks)
                        (range (num_layers - 1)))
  = (Z.to_nat (num_layers - 1)
     * List.length (filter (fun t => negb (String.eqb t "[the]")) toks))%nat.
Proof.
  rewrite (length_flat_map_const _
             (List.length (filter (fun t => negb (String.eqb t "[the]"))
                                  toks))).
  - now rewrite length_range.
  - intros layer _. apply length_token_arrows_layer.
Qed.

(** Every arrow of the loop starts at column 0. *)
Lemma token_arrows_tail num_layers (toks : list string) start_index :
  Forall (fun c => arrow_tail_x c = Some (add_value (Int 0) (Float 0.5)))
         (flat_map (layer_token_arrows start_index toks)
                   (range (num_layers - 1))).
Proof.
  apply Forall_forall. intros c Hc.
  apply in_flat_map in Hc. destruct Hc as [layer [_ Hc]].
  apply in_flat_map in Hc. destruct Hc as [[i t] [_ Hc]].
  unfold token_arrow_calls in Hc. simpl in Hc.
  destruct (String.eqb t "[the]"); [contradiction|].
  destruct Hc as [<-|[]]. reflexivity.
Qed.

Lemma script_columns_fit :
  num_layers <= float_overflow
  /\ len tokens <= float_overflow
  /\ fits_float 0
  /\ fits_float (0 + len tokens).
Proof. repeat split; discriminate. Qed.

(** C3: for layer counts, token counts and columns within the range of
    floats, the horizontal-arrow loop runs over every layer of
    [range(num_layers - 1)] and, in each, over every (index, text) of the
    token list; for each it draws nothing exactly when that text, the
    arrow's target, is ['[the]'], and one arrow to that index otherwise.
    The token at the arrow's source is not looked at: with ['[the]']
    second, the arrow to column 1 is skipped whatever the first token is,
    and a first token other than ['[the]'] gets an arrow to itself. *)
Theorem token_arrows_skip_on_target :
  forall (num_layers : Z) (toks : list string) (start_index : Z),
    num_layers <= float_overflow ->
    len toks <= float_overflow ->
    fits_float start_index ->
    fits_float (start_index + len toks) ->
    draw_token_arrows num_layers toks start_index
    = (flat_map (fun layer =>
                   flat_map (token_arrow_calls start_index
                               (0.8 + nearest layer) 0)
                            (enumerate toks))
                (range (num_layers - 1)),
       inr tt)
    /\ (forall layer, In layer (range (num_layers - 1))
                      <-> 0 <= layer <= num_layers - 2)
    /\ (forall y_pos i target_token,
          In (i, target_token) (enumerate toks) ->
          calls (token_arrow start_index (Float y_pos) 0 (i, target_token))
          = token_arrow_calls start_index y_pos 0 (i, target_token)
          /\ outcome (token_arrow start_index (Float y_pos) 0
                                  (i, target_token)) = inr tt
          /\ (token_arrow_calls start_index y_pos 0 (i, target_token)
              = [] <-> target_token = "[the]")
          /\ (token_arrow_calls start_index y_pos 0 (i, target_token)
              = [] \/
              token_arrow_calls start_index y_pos 0 (i, target_token)
              = [token_arrow_call start_index y_pos 0 i]))
    /\ (forall y_pos source,
          calls (for_each (enumerate [source; "[the]"])
                          (token_arrow start_index (Float y_pos) 0))
          = if String.eqb source "[the]" then []
            else [token_arrow_call start_index y_pos 0 0]).
Proof.
  intros num_layers toks start_index Hlayers Hlen Hlo Hhi.
  split; [|split; [|split]].
  - now apply draw_token_arrows_run.
  - intros layer. rewrite in_range_iff. lia.
  - intros y_pos i target_token Hin. apply in_enumerate in Hin.
    rewrite (run_eq (token_arrow start_index (Float y_pos) 0
                                 (i, target_token))).
    rewrite token_arrow_run by (unfold fits_float in *; simpl fst; lia).
    split; [reflexivity|]. split; [reflexivity|].
    split; [apply token_arrow_calls_skip|].
    unfold token_arrow_calls. simpl.
    destruct (String.eqb target_token "[the]"); [now left | now right].
  - intros y_pos source.
    change (for_each (enumerate [source; "[the]"])
                     (token_arrow start_index (Float y_pos) 0))
      with (token_arrow start_index (Float y_pos) 0 (0, source) ;;
            @ret unit tt ;; ret tt).
    rewrite calls_bind.
    rewrite token_arrow_run by (unfold fits_float in *; simpl fst; lia).
    unfold token_arrow_calls. simpl fst. simpl snd.
    change (calls (@ret unit tt ;; ret tt)) with (@nil call).
    rewrite app_nil_r.
    destruct (String.eqb source "[the]"); reflexivity.
Qed.

(** The script's own layer count, tokens and start index. *)
Lemma token_arrows_skip_on_target_witness :
  draw_token_arrows num_layers tokens 0
  = (flat_map (fun layer =>
                 flat_map (token_arrow_calls 0 (0.8 + nearest layer) 0)
                          (enumerate tokens))
              (range (num_layers - 1)),
     inr tt).
Proof.
  destruct script_columns_fit as [Hlayers [Hlen [Hlo Hhi]]].
  exact (proj1 (token_arrows_skip_on_target num_layers tokens 0
                  Hlayers Hlen Hlo Hhi)).
Defined.

(** C9: every horizontal arrow starts at column 0, [from_index] being the
    constant 0 (x = 0 + 0.5); each of the 11 layers of
    [range(num_layers - 1)] has one arrow to each of the six tokens other
    than ['[the]'], at indices 1 to 6: 66 arrows. *)
Theorem token_arrows_from_first_column :
  let arrows := calls (draw_token_arrows num_layers tokens 0) in
  outcome (draw_token_arrows num_layers tokens 0) = inr tt
  /\ arrows
     = flat_map (fun layer =>
                   map (token_arrow_call 0 (0.8 + nearest layer) 0)
                       [1; 2; 3; 4; 5; 6])
                (range (num_layers - 1))
  /\ List.length arrows
     = (Z.to_nat (num_layers - 1)
        * List.length (filter (fun t => negb (String.eqb t "[the]")) tokens))%nat
  /\ List.length arrows = 66%nat
  /\ add (Int 0) (Float 0.5) = inr (Float 0.5)
  /\ Forall (fun c => arrow_tail_x c = Some (Float 0.5)) arrows.
Proof.
  intros arrows. subst arrows.
  destruct script_columns_fit as [Hlayers [Hlen [Hlo Hhi]]].
  unfold calls, outcome.
  rewrite draw_token_arrows_run by assumption. unfold fst, snd.
  split; [reflexivity|].
  split; [reflexivity|].
  split; [apply length_token_arrows|].
  split; [now rewrite length_token_arrows|].
  split; [reflexivity|].
  apply (token_arrows_tail num_layers tokens 0).
Qed.

(* ================================================================= *)
(** ** Arrows between layers *)

Lemma layer_arrow_run layer token :
  fits_float layer ->
  fits_float token ->
  layer_arrow layer token = ([layer_arrow_call layer token], inr tt).
Proof.
  intros Hlayer Htoken. unfold layer_arrow.
  rewrite !add_int_float by assumption.
  repeat progress (rewrite ?bind_lift_ok; cbv beta).
  reflexivity.
Qed.

Lemma draw_layer_arrows_run num_layers seq_length :
  num_layers <= float_overflow ->
  seq_length <= float_overflow ->
  draw_layer_arrows num_layers seq_length
  = (flat_map (fun layer => map (layer_arrow_call layer) (range seq_length))
              (range num_layers),
     inr tt).
Proof.
  intros Hlayers Htokens. unfold draw_layer_arrows.
  apply for_each_ok. intros layer Hlayer. apply in_range_iff in Hlayer.
  rewrite <- flat_map_single.
  apply for_each_ok. intros token Htoken. apply in_range_iff in Htoken.
  apply layer_arrow_run; unfold fits_float; lia.
Qed.

Lemma length_layer_arrows num_layers seq_length :
  List.length
    (flat_map (fun layer => map (layer_arrow_call layer) (range seq_length))
              (range num_layers))
  = (Z.to_nat num_layers * Z.to_nat seq_length)%nat.
Proof.
  rewrite (length_flat_map_const _ (Z.to_nat seq_length)).
  - now rewrite length_range.
  - intros layer _. now rewrite length_map, length_range.
Qed.

Lemma script_grid_fits :
  num_layers <= float_overflow /\ len tokens <= float_overflow.
Proof. split; discriminate. Qed.

(** C10: the vertical-arrow loop draws one arrow per (layer, token) pair
    for the layers 0 to [num_layers - 1], 84 in all; the seven arrows that
    start at the topmost layer are drawn last and have their head at
    y = (num_layers - 1) + 1.3, which is above [num_layers], the upper
    limit given to [set_ylim]. *)
Theorem layer_arrows_overshoot :
  let arrows := calls (draw_layer_arrows num_layers (len tokens)) in
  outcome (draw_layer_arrows num_layers (len tokens)) = inr tt
  /\ arrows
     = flat_map (fun layer => map (layer_arrow_call layer) (range (len tokens)))
                (range num_layers)
  /\ List.length arrows
     = (Z.to_nat num_layers * Z.to_nat (len tokens))%nat
  /\ List.length arrows = 84%nat
  /\ skipn 77 arrows
     = map (layer_arrow_call (num_layers - 1)) (range (len tokens))
  /\ add (Int (num_layers - 1)) (Float 1.3)
     = inr (Float (nearest (num_layers - 1) + 1.3))
  /\ Forall (fun c => arrow_head_y c
                      = Some (Float (nearest (num_layers - 1) + 1.3)))
            (skipn 77 arrows)
  /\ In (SetYlim (Float (-0.3)) (Int num_layers))
        (calls (plot_setup (len tokens) num_layers))
  /\ to_float (Int num_layers) = inr (nearest num_layers)
  /\ PrimFloat.ltb (nearest num_layers) (nearest (num_layers - 1) + 1.3)
     = true.
Proof.
  intros arrows. subst arrows.
  destruct script_grid_fits as [Hlayers Htokens].
  unfold calls at 1 2 3 4 5, outcome.
  rewrite draw_layer_arrows_run by assumption. unfold fst, snd.
  split; [reflexivity|].
  split; [reflexivity|].
  split; [apply length_layer_arrows|].
  split; [now rewrite length_layer_arrows|].
  split; [reflexivity|].
  split; [reflexivity|].
  split.
  - change (skipn 77 (flat_map (fun layer =>
                                  map (layer_arrow_call layer)
                                      (range (len tokens)))
                               (range num_layers)))
      with (map (layer_arrow_call (num_layers - 1)) (range (len tokens))).
    apply Forall_forall. intros c Hc.
    apply in_map_iff in Hc. destruct Hc as [token [<- _]]. reflexivity.
  - split; [|split; reflexivity].
    right; right; left. reflexivity.
Qed.

(* ================================================================= *)
(** ** The grid of rectangles *)

Lemma mod_12 layer : mod_ layer 12 = inr (layer mod 12).
Proof. reflexivity. Qed.

(** One iteration of the inner loop, for float box sizes, a layer and a
    token that convert, and a layer whose palette index exists. *)
Lemma draw_rectangle_run_at colors (box_width box_height : float)
    layer token :
  fits_float layer ->
  fits_float token ->
  0 <= layer mod 12 < len colors ->
  draw_rectangle colors (Float box_width) (Float box_height) layer token
  = ([grid_rectangle colors box_width box_height layer token], inr tt).
Proof.
  intros Hlayer Htoken Hk. unfold draw_rectangle.
  repeat progress
    (rewrite ?bind_lift_ok, ?sub_1_float, ?truediv_float_2, ?mod_12;
     rewrite ?add_int_float by assumption;
     rewrite ?(@getitem_in_bounds rgb (0, 0, 0)%float colors _ Hk);
     cbv beta).
  reflexivity.
Qed.

(** One iteration for a layer whose palette index is missing: the lookup
    for the edge colour raises before anything is drawn. *)
Lemma draw_rectangle_raise_at colors (box_width box_height : float)
    layer token :
  fits_float layer ->
  fits_float token ->
  len colors <= layer mod 12 ->
  draw_rectangle colors (Float box_width) (Float box_height) layer token
  = ([], inl IndexError).
Proof.
  intros Hlayer Htoken Hk. unfold draw_rectangle.
  repeat progress
    (rewrite ?bind_lift_ok, ?sub_1_float, ?truediv_float_2, ?mod_12;
     rewrite ?add_int_float by assumption;
     cbv beta).
  rewrite (@getitem_past_end rgb colors _ Hk).
  reflexivity.
Qed.

Lemma draw_rectangles_run colors num_layers seq_length
    (box_width box_height : float) :
  12 <= len colors ->
  num_layers <= float_overflow ->
  seq_length <= float_overflow ->
  draw_rectangles colors num_layers seq_length
                  (Float box_width) (Float box_height)
  = (flat_map (fun layer =>
                 map (grid_rectangle colors box_width box_height layer)
                     (range seq_length))
              (range num_layers),
     inr tt).
Proof.
  intros Hcolors Hlayers Htokens. unfold draw_rectangles.
  apply for_each_ok. intros layer Hlayer. apply in_range_iff in Hlayer.
  rewrite <- flat_map_single.
  apply for_each_ok. intros token Htoken. apply in_range_iff in Htoken.
  pose proof (Z.mod_pos_bound layer 12 eq_refl).
  apply draw_rectangle_run_at; unfold fits_float; lia.
Qed.

Lemma draw_rectangles_raise colors num_layers seq_length
    (box_width box_height : float) :
  len colors < 12 ->
  len colors < num_layers ->
  0 < seq_length <= float_overflow ->
  draw_rectangles colors num_layers seq_length
                  (Float box_width) (Float box_height)
  = (flat_map (fun layer =>
                 map (grid_rectangle colors box_width box_height layer)
                     (range seq_length))
              (range (len colors)),
     inl IndexError).
Proof.
  intros Hshort Hlayers Htokens.
  pose proof (len_nonneg colors) as Hlen.
  pose proof float_overflow_large as Hlarge.
  unfold draw_rectangles.
  rewrite (range_split num_layers (len colors)) by lia.
  rewrite (for_each_raise
             (fun layer =>
                map (grid_rectangle colors box_width box_height layer)
                    (range seq_length))
             _ _ _ _ [] IndexError).
  - now rewrite app_nil_r.
  - intros layer Hlayer. apply in_range_iff in Hlayer.
    rewrite <- flat_map_single.
    apply for_each_ok. intros token Htoken. apply in_range_iff in Htoken.
    apply draw_rectangle_run_at; unfold fits_float; try lia.
    rewrite Z.mod_small; lia.
  - rewrite (range_split seq_length 0) by lia.
    change (range 0) with (@nil Z). simpl app. simpl for_each.
    apply bind_raise.
    apply draw_rectangle_raise_at; unfold fits_float; try lia.
    rewrite Z.mod_small; lia.
Qed.

(* ================================================================= *)
(** ** The whole script *)

Lemma main_unfold colors :
  main colors = (plot_setup (len tokens) num_layers ;; after_setup colors).
Proof. reflexivity. Qed.

Lemma box_height_value :
  truediv (Float 0.8) (Int 4) = inr (Float (0.8 / 4)).
Proof. reflexivity. Qed.

Lemma plot_setup_ok : outcome (plot_setup (len tokens) num_layers) = inr tt.
Proof. reflexivity. Qed.

Lemma draw_rectangles_ok colors :
  12 <= len colors ->
  outcome (draw_rectangles colors num_layers (len tokens)
                           (Float 0.8) (Float (0.8 / 4))) = inr tt.
Proof.
  intros Hcolors. destruct script_grid_fits as [Hlayers Htokens].
  unfold outcome. now rewrite draw_rectangles_run.
Qed.

Lemma draw_token_labels_ok : outcome (draw_token_labels tokens 0) = inr tt.
Proof. reflexivity. Qed.

Lemma draw_token_arrows_ok :
  outcome (draw_token_arrows num_layers tokens 0) = inr tt.
Proof. now vm_compute. Qed.

Lemma draw_layer_arrows_ok :
  outcome (draw_layer_arrows num_layers (len tokens)) = inr tt.
Proof. now vm_compute. Qed.

Lemma draw_is_labels_ok :
  outcome (draw_is_labels accum_is accum_is_positions) = inr tt.
Proof. reflexivity. Qed.

Lemma draw_in_labels_ok :
  outcome (draw_in_labels accum_in accum_in_positions) = inr tt.
Proof. reflexivity. Qed.

Lemma draw_paris_ok : outcome (draw_paris (len tokens)) = inr tt.
Proof. reflexivity. Qed.

(** The calls of a whole run, phase by phase. *)
Lemma main_run colors :
  12 <= len colors ->
  main colors
  = (calls (plot_setup (len tokens) num_layers)
     ++ calls (draw_rectangles colors num_layers (len tokens)
                               (Float 0.8) (Float (0.8 / 4)))
     ++ calls (draw_token_labels tokens 0)
     ++ calls (draw_token_arrows num_layers tokens 0)
     ++ calls (draw_layer_arrows num_layers (len tokens))
     ++ calls (draw_is_labels accum_is accum_is_positions)
     ++ calls (draw_in_labels accum_in accum_in_positions)
     ++ calls (draw_paris (len tokens))
     ++ calls (finish (len tokens) num_layers),
     inr tt).
Proof.
  intros Hcolors.
  rewrite (run_eq (main colors)).
  rewrite main_unfold. unfold after_setup.
  rewrite box_height_value.
  repeat progress
    (rewrite ?calls_bind, ?outcome_bind, ?outcome_lift, ?calls_lift,
       ?plot_setup_ok, ?draw_rectangles_ok, ?draw_token_labels_ok,
       ?draw_token_arrows_ok, ?draw_layer_arrows_ok, ?draw_is_labels_ok,
       ?draw_in_labels_ok, ?draw_paris_ok by assumption;
     cbv beta iota).
  reflexivity.
Qed.

(** C7: on a palette with the twelve entries the grid asks for, the script
    runs to its last statement and raises nothing; the model is a total
    function, every loop running over a finite list; and every index used
    is in bounds: [layer % 12] in the palette, and each callout index in
    its position list. *)
Theorem script_terminates :
  forall colors : list rgb,
    12 <= len colors ->
    outcome (main colors) = inr tt
    /\ last (calls (main colors)) TightLayout = Show
    /\ Forall (fun layer => 0 <= layer mod 12 < len colors) (range num_layers)
    /\ Forall (fun it => 0 <= fst it < len accum_is_positions)
              (enumerate accum_is)
    /\ Forall (fun it => 0 <= fst it < len accum_in_positions)
              (enumerate accum_in).
Proof.
  intros colors Hcolors.
  split; [|split; [|split; [|split]]].
  - unfold outcome. now rewrite main_run.
  - unfold calls at 1. rewrite main_run by assumption. unfold fst.
    change (calls (finish (len tokens) num_layers))
      with (removelast (calls (finish (len tokens) num_layers)) ++ [Show]).
    rewrite !app_assoc. apply last_last.
  - apply Forall_forall. intros layer _.
    pose proof (Z.mod_pos_bound layer 12). lia.
  - repeat constructor; discriminate.
  - repeat constructor; discriminate.
Qed.

(** A run on matplotlib's [tab20]. *)
Lemma script_terminates_witness :
  12 <= len tab20 /\ outcome (main tab20) = inr tt.
Proof.
  assert (Hcolors : 12 <= len tab20) by (now vm_compute).
  split; [exact Hcolors|].
  exact (proj1 (script_terminates tab20 Hcolors)).
Defined.

(** C4: given a palette with an entry for each of the twelve indices
    [layer % 12], the grid loop of a run adds exactly one rectangle per
    (layer, token) pair, layer by layer and token by token: layer count
    times token count of them, 12 * 7 = 84. *)
Theorem grid_rectangle_count :
  forall colors : list rgb,
    12 <= len colors ->
    let rects :=
      calls (draw_rectangles colors num_layers (len tokens)
                             (Float 0.8) (Float (0.8 / 4))) in
    rects
    = flat_map (fun layer =>
                  map (grid_rectangle colors 0.8 (0.8 / 4) layer)
                      (range (len tokens)))
               (range num_layers)
    /\ List.length rects = (Z.to_nat num_layers * Z.to_nat (len tokens))%nat
    /\ List.length rects = 84%nat
    /\ exists before after,
         calls (main colors) = before ++ rects ++ after
         /\ filter is_add_patch before = [].
Proof.
  intros colors Hcolors rects. subst rects.
  destruct script_grid_fits as [Hlayers Htokens].
  assert (Hlength :
            List.length
              (calls (draw_rectangles colors num_layers (len tokens)
                                      (Float 0.8) (Float (0.8 / 4))))
            = (Z.to_nat num_layers * Z.to_nat (len tokens))%nat).
  { unfold calls. rewrite draw_rectangles_run by assumption. unfold fst.
    rewrite (length_flat_map_const _ (Z.to_nat (len tokens))).
    - now rewrite length_range.
    - intros layer _. now rewrite length_map, length_range. }
  split; [|split; [|split]].
  - unfold calls. now rewrite draw_rectangles_run.
  - exact Hlength.
  - now rewrite Hlength.
  - unfold calls at 1. rewrite main_run by assumption. unfold fst.
    eexists. eexists. split; reflexivity.
Qed.

(** The script's grid on matplotlib's [tab20]: 84 rectangles. *)
Lemma grid_rectangle_count_witness :
  12 <= len tab20
  /\ List.length
       (calls (draw_rectangles tab20 num_layers (len tokens)
                               (Float 0.8) (Float (0.8 / 4))))
     = 84%nat.
Proof.
  assert (Hcolors : 12 <= len tab20) by (now vm_compute).
  split; [exact Hcolors|].
  exact (proj1 (proj2 (proj2 (grid_rectangle_count tab20 Hcolors)))).
Defined.

(** A whole run on [tab20] makes 264 calls. *)
Example main_tab20_calls :
  List.length (calls (main tab20)) = 264%nat.
Proof. now vm_compute. Qed.

(* ================================================================= *)
(** ** Further properties of the drawing code *)

(** *** Token labels (lines 55-67) *)

(** X1: for a start index and a token count that keep every column
    within the range of floats, the label loop raises nothing and draws
    one label per token, in the order of the list, the k-th token's label
    at column [start_index + k]. *)
Theorem token_labels_one_per_token :
  forall (toks : list string) (start_index : Z),
    fits_float start_index ->
    fits_float (start_index + len toks) ->
    outcome (draw_token_labels toks start_index) = inr tt
    /\ List.length (calls (draw_token_labels toks start_index))
       = List.length toks
    /\ forall k : nat,
         nth_error (calls (draw_token_labels toks start_index)) k
         = option_map
             (token_label
                (add_value (Int (start_index + Z.of_nat k)) (Float 0.5)))
             (nth_error toks k).
Proof.
  intros toks start_index Hlo Hhi.
  split; [|split].
  - unfold outcome. now rewrite draw_token_labels_run.
  - unfold calls. rewrite draw_token_labels_run by assumption. unfold fst.
    now rewrite length_map, length_enumerate.
  - intros k. now apply nth_error_draw_token_labels.
Qed.

(** The script's tokens from start index 0: seven labels. *)
Lemma token_labels_one_per_token_witness :
  outcome (draw_token_labels tokens 0) = inr tt
  /\ List.length (calls (draw_token_labels tokens 0)) = List.length tokens.
Proof.
  destruct (token_labels_one_per_token tokens 0) as [Hok [Hlen _]];
    [reflexivity | reflexivity |].
  exact (conj Hok Hlen).
Defined.

(** *** Right alignment (lines 23-29) *)

(** X13: for a window of width [seq_length >= 1] that converts to a
    float, the tokens are right-aligned.  When they fit they are all kept
    and the first label is drawn at horizontal index
    [seq_length - len(tokens)]; otherwise [start_index] is 0 and the
    tokens are cut down to their last [seq_length] elements.  Either way
    the first label is drawn at [start_index] and the last token ends at
    the window's right edge. *)
Theorem tokens_right_aligned :
  forall (seq_length : Z) (toks : list string),
    0 < seq_length ->
    fits_float seq_length ->
    let '(toks', start_index) := right_align seq_length toks in
    (if len toks <=? seq_length
     then toks' = toks /\ start_index = seq_length - len toks
     else toks' = lastn seq_length toks /\ start_index = 0)
    /\ start_index + len toks' = seq_length
    /\ hd_error (calls (draw_token_labels toks' start_index))
       = option_map (token_label (add_value (Int start_index) (Float 0.5)))
                    (hd_error toks').
Proof.
  intros seq_length toks Hpos Hfits.
  assert (Hlabel : forall ts si,
             0 <= si -> si + len ts = seq_length ->
             hd_error (calls (draw_token_labels ts si))
             = option_map (token_label (add_value (Int si) (Float 0.5)))
                          (hd_error ts)).
  { intros ts si Hsi Hsum. unfold calls.
    rewrite draw_token_labels_run
      by (unfold fits_float in *; pose proof (len_nonneg ts); lia).
    destruct ts as [|t ts]; simpl; [reflexivity|].
    now rewrite Z.add_0_r. }
  destruct (Z.leb_spec (len toks) seq_length) as [Hfit|Hlong].
  - rewrite right_align_fits by assumption.
    repeat split; [lia | apply Hlabel; lia].
  - rewrite right_align_truncates by lia.
    repeat split.
    + rewrite length_lastn; lia.
    + apply Hlabel; [lia | rewrite length_lastn; lia].
Qed.

(** Three tokens in a window of five start at index 2; five tokens in a
    window of three lose the first two. *)
Lemma tokens_right_aligned_witness :
  (let '(toks', start_index) := right_align 5 ["a"; "b"; "c"] in
   (toks' = ["a"; "b"; "c"] /\ start_index = 5 - 3)
   /\ start_index + len toks' = 5
   /\ hd_error (calls (draw_token_labels toks' start_index))
      = option_map (token_label (add_value (Int start_index) (Float 0.5)))
                   (hd_error toks'))
  /\
  (let '(toks', start_index) := right_align 3 ["a"; "b"; "c"; "d"; "e"] in
   (toks' = ["c"; "d"; "e"] /\ start_index = 0)
   /\ start_index + len toks' = 3
   /\ hd_error (calls (draw_token_labels toks' start_index))
      = option_map (token_label (add_value (Int start_index) (Float 0.5)))
                   (hd_error toks')).
Proof.
  split.
  - apply (tokens_right_aligned 5 ["a"; "b"; "c"]); reflexivity.
  - apply (tokens_right_aligned 3 ["a"; "b"; "c"; "d"; "e"]); reflexivity.
Defined.

(** X2: for a window of width [seq_length >= 1] that converts to a float,
    every token that is kept gets its label inside the window: the k-th
    kept token is drawn at column [start_index + k], and that column lies
    in [0, seq_length). *)
Theorem token_labels_inside_window :
  forall (seq_length : Z) (toks : list string) (k : nat) (t : string),
    0 < seq_length ->
    fits_float seq_length ->
    nth_error (fst (right_align seq_length toks)) k = Some t ->
    let toks' := fst (right_align seq_length toks) in
    let start_index := snd (right_align seq_length toks) in
    nth_error (calls (draw_token_labels toks' start_index)) k
    = Some (token_label
              (add_value (Int (start_index + Z.of_nat k)) (Float 0.5)) t)
    /\ 0 <= start_index + Z.of_nat k < seq_length.
Proof.
  intros seq_length toks k t Hpos Hfits Hk toks' start_index.
  assert (Hlt : (k < List.length toks')%nat).
  { apply nth_error_Some. subst toks'. now rewrite Hk. }
  assert (Hwin : 0 <= start_index /\ start_index + len toks' = seq_length).
  { subst toks' start_index.
    destruct (Z.le_gt_cases (len toks) seq_length) as [Hfit|Hlong].
    - rewrite right_align_fits by assumption. unfold fst, snd. lia.
    - rewrite right_align_truncates by lia. unfold fst, snd.
      rewrite length_lastn; lia. }
  destruct Hwin as [Hsi Hsum].
  split.
  - rewrite nth_error_draw_token_labels
      by (unfold fits_float in *; pose proof (len_nonneg toks'); lia).
    subst toks'. now rewrite Hk.
  - unfold len in Hsum. lia.
Qed.

(** Five tokens in a window of three: the first kept token is the third,
    drawn at column 0. *)
Lemma token_labels_inside_window_witness :
  nth_error (calls (draw_token_labels ["c"; "d"; "e"] 0)) 0
  = Some (token_label (add_value (Int 0) (Float 0.5)) "c")
  /\ 0 <= 0 < 3.
Proof.
  exact (token_labels_inside_window 3 ["a"; "b"; "c"; "d"; "e"]
           0%nat "c" eq_refl eq_refl eq_refl).
Defined.

(** X3: for a width [seq_length >= 0], aligning the aligned tokens again
    changes nothing: the same tokens and the same start index come out. *)
Theorem right_align_idempotent :
  forall (seq_length : Z) (toks : list string),
    0 <= seq_length ->
    right_align seq_length (fst (right_align seq_length toks))
    = right_align seq_length toks.
Proof.
  intros seq_length toks Hsl.
  destruct (Z.le_gt_cases (len toks) seq_length) as [Hfit|Hlong].
  - rewrite (right_align_fits seq_length toks) by assumption.
    unfold fst. now apply right_align_fits.
  - destruct (Z.eq_dec seq_length 0) as [->|Hne].
    + rewrite (right_align_nonpositive 0 toks) by lia.
      simpl. now rewrite right_align_nonpositive by lia.
    + rewrite (right_align_truncates seq_length toks) by lia.
      unfold fst. rewrite right_align_fits.
      * rewrite length_lastn by lia. now rewrite Z.sub_diag.
      * rewrite length_lastn; lia.
Qed.

Lemma right_align_idempotent_witness :
  right_align 3 (fst (right_align 3 ["a"; "b"; "c"; "d"; "e"]))
  = right_align 3 ["a"; "b"; "c"; "d"; "e"].
Proof.
  apply (right_align_idempotent 3 ["a"; "b"; "c"; "d"; "e"]). discriminate.
Defined.

(** X4: for a width [seq_length <= 0] nothing is cut from the end: the
    start index is 0 and the tokens lose their first [-seq_length]
    elements, so a width of 0 keeps every token. *)
Theorem right_align_nonpositive_width :
  forall (seq_length : Z) (toks : list string),
    seq_length <= 0 ->
    right_align seq_length toks = (skipn (Z.to_nat (- seq_length)) toks, 0)
    /\ right_align 0 toks = (toks, 0).
Proof.
  intros seq_length toks Hsl. split.
  - now apply right_align_nonpositive.
  - now rewrite right_align_nonpositive.
Qed.

Lemma right_align_nonpositive_width_witness :
  right_align (-1) ["a"; "b"; "c"] = (["b"; "c"], 0)
  /\ right_align 0 ["a"; "b"; "c"] = (["a"; "b"; "c"], 0).
Proof.
  apply (right_align_nonpositive_width (-1) ["a"; "b"; "c"]). discriminate.
Defined.

(** *** The grid and the palette (lines 41-53) *)

(** X5: with float box sizes, a palette of fewer than twelve colours,
    fewer colours than layers and at least one token (a count that
    converts to a float), the grid loop draws the rows that have a colour,
    one rectangle per token, and raises [IndexError] at the first
    rectangle of the first row without one. *)
Theorem grid_short_palette :
  forall (colors : list rgb) (num_layers seq_length : Z)
         (box_width box_height : float),
    len colors < 12 ->
    len colors < num_layers ->
    0 < seq_length <= float_overflow ->
    draw_rectangles colors num_layers seq_length
                    (Float box_width) (Float box_height)
    = (flat_map (fun layer =>
                   map (grid_rectangle colors box_width box_height layer)
                       (range seq_length))
                (range (len colors)),
       inl IndexError).
Proof.
  intros colors num_layers seq_length box_width box_height.
  apply draw_rectangles_raise.
Qed.

(** Two colours, three layers, two tokens: two rows are drawn, the third
    raises. *)
Lemma grid_short_palette_witness :
  draw_rectangles (firstn 2 tab20) 3 2 (Float 0.8) (Float 0.2)
  = (flat_map (fun layer =>
                 map (grid_rectangle (firstn 2 tab20) 0.8 0.2 layer)
                     (range 2))
              (range (len (firstn 2 tab20))),
     inl IndexError).
Proof.
  apply (grid_short_palette (firstn 2 tab20) 3 2 0.8%float 0.2%float);
    [reflexivity | reflexivity | split; [reflexivity | discriminate]].
Defined.

Lemma calls_bind_lift {A B : Type} (r : exn + A) (k : A -> Draw B) :
  calls (bind (lift r) k)
  = match r with
    | inr a => calls (k a)
    | inl _ => []
    end.
Proof.
  destruct r as [e|a]; [reflexivity|]. now rewrite bind_lift_ok.
Qed.

Lemma nth_error_in_firstn {A : Type} :
  forall (n k : nat) (l : list A) (x : A),
    (k < n)%nat -> nth_error l k = Some x -> In x (firstn n l).
Proof.
  induction n as [|n IH]; intros k l x Hk Hnth; [lia|].
  destruct l as [|y l]; [now destruct k|].
  destruct k as [|k]; simpl in *.
  - left. congruence.
  - right. apply (IH k); [lia | assumption].
Qed.

Lemma getitem_in_firstn {A : Type} (l : list A) (i n : Z) (x : A) :
  0 <= i < n -> getitem l i = inr x -> In x (firstn (Z.to_nat n) l).
Proof.
  intros Hi. unfold getitem.
  destruct (Z.ltb_spec i 0) as [Hneg|_]; [lia|].
  destruct (Z.ltb_spec i 0) as [Hneg|_]; [lia|].
  destruct (nth_error l (Z.to_nat i)) as [y|] eqn:Hnth; [|discriminate].
  intros Heq. injection Heq as <-.
  apply (nth_error_in_firstn _ (Z.to_nat i)); [lia | assumption].
Qed.

(** Each iteration either adds nothing or adds one rectangle whose two
    colours are the palette entry at [layer % 12]. *)
Lemma draw_rectangle_colors colors box_width box_height layer token :
  Forall (fun c => exists v,
              In v (firstn 12 colors)
              /\ patch_colors c = Some (RGB v, RGB v))
         (calls (draw_rectangle colors box_width box_height layer token)).
Proof.
  unfold draw_rectangle. rewrite !mod_12.
  pose proof (Z.mod_pos_bound layer 12 eq_refl) as Hmod.
  repeat first
    [ rewrite bind_lift_ok; cbv beta
    | rewrite calls_bind_lift;
      match goal with
      | |- Forall _ (match ?r with inl _ => _ | inr _ => _ end) =>
          destruct r eqn:?
      end; [now constructor|]; cbv beta ].
  match goal with
  | H1 : getitem colors (layer mod 12) = inr ?v,
    H2 : inr ?v = inr ?w |- _ =>
      injection H2 as <-;
      constructor; [|constructor];
      exists v; split;
      [ exact (getitem_in_firstn colors (layer mod 12) 12 v Hmod H1)
      | reflexivity ]
  end.
Qed.

(** X7: whatever the palette, the layer count, the token count and the
    box sizes, every rectangle the grid loop adds, also in a run that is
    cut short, has one of the first twelve palette entries as both its
    edge and its face colour; entries from index 12 on are never used. *)
Theorem grid_uses_first_twelve_colours :
  forall (colors : list rgb) (num_layers seq_length : Z)
         (box_width box_height : num),
    Forall (fun c => exists v,
                In v (firstn 12 colors)
                /\ patch_colors c = Some (RGB v, RGB v))
           (calls (draw_rectangles colors num_layers seq_length
                                   box_width box_height)).
Proof.
  intros colors num_layers seq_length box_width box_height.
  unfold draw_rectangles.
  apply for_each_Forall. intros layer _.
  apply for_each_Forall. intros token _.
  apply draw_rectangle_colors.
Qed.

(** *** The palette the script needs (whole module) *)

Lemma makes_no_ret p {A : Type} (a : A) : makes_no p (ret a).
Proof. reflexivity. Qed.

Lemma makes_no_lift p {A : Type} (r : exn + A) : makes_no p (lift r).
Proof. reflexivity. Qed.

Lemma makes_no_emit p (c : call) : p c = false -> makes_no p (emit c).
Proof.
  intros Hc. unfold makes_no, calls, emit. simpl. now rewrite Hc.
Qed.

Lemma makes_no_bind p {A B : Type} (m : Draw A) (k : A -> Draw B) :
  makes_no p m -> (forall a, makes_no p (k a)) -> makes_no p (bind m k).
Proof.
  unfold makes_no. intros Hm Hk. rewrite calls_bind, filter_app, Hm.
  destruct (outcome m) as [e|a]; [reflexivity | apply Hk].
Qed.

Lemma makes_no_for_each p {A : Type} (l : list A) (body : A -> Draw unit) :
  (forall x, makes_no p (body x)) -> makes_no p (for_each l body).
Proof.
  intros Hbody. induction l as [|x l IH]; simpl.
  - apply makes_no_ret.
  - apply makes_no_bind; [apply Hbody | now intros _].
Qed.

(** Walks a computation built from the combinators above. *)
Ltac draw_walk :=
  repeat first
    [ apply makes_no_ret | apply makes_no_lift
    | apply makes_no_emit; reflexivity
    | apply makes_no_bind | apply makes_no_for_each
    | intros [? ?] | intro ].

Lemma draw_rectangles_no_show colors num_layers seq_length box_width
    box_height :
  makes_no is_show
    (draw_rectangles colors num_layers seq_length box_width box_height).
Proof. unfold draw_rectangles, draw_rectangle. draw_walk. Qed.

(** X6: the script runs to the end exactly when the palette has at least
    twelve colours, and then calls [plt.show()] once.  With fewer it sets
    the plot up, draws the grid rows that have a colour, raises
    [IndexError] and never reaches [plt.show()]. *)
Theorem script_needs_twelve_colours :
  forall colors : list rgb,
    if 12 <=? len colors
    then outcome (main colors) = inr tt
         /\ filter is_show (calls (main colors)) = [Show]
    else main colors
         = (calls (plot_setup (len tokens) num_layers)
            ++ flat_map (fun layer =>
                           map (grid_rectangle colors 0.8 (0.8 / 4) layer)
                               (range (len tokens)))
                        (range (len colors)),
            inl IndexError)
         /\ filter is_show (calls (main colors)) = [].
Proof.
  intros colors.
  destruct (Z.leb_spec 12 (len colors)) as [Hcolors|Hshort].
  - unfold outcome, calls. rewrite main_run by assumption.
    unfold fst, snd. split; [reflexivity|].
    rewrite !filter_app.
    rewrite (draw_rectangles_no_show colors).
    reflexivity.
  - assert (Hgrid :
              draw_rectangles colors num_layers (len tokens)
                              (Float 0.8) (Float (0.8 / 4))
              = (flat_map (fun layer =>
                             map (grid_rectangle colors 0.8 (0.8 / 4) layer)
                                 (range (len tokens)))
                          (range (len colors)),
                 inl IndexError)).
    { apply draw_rectangles_raise;
        [assumption | unfold num_layers; lia
        | split; [reflexivity | discriminate]]. }
    assert (Hrun : main colors
                   = (calls (plot_setup (len tokens) num_layers)
                      ++ flat_map (fun layer =>
                                     map (grid_rectangle colors 0.8 (0.8 / 4)
                                                         layer)
                                         (range (len tokens)))
                                  (range (len colors)),
                      inl IndexError)).
    { rewrite main_unfold. unfold after_setup.
      rewrite box_height_value.
      rewrite (bind_ok (plot_setup (len tokens) num_layers) _
                 (calls (plot_setup (len tokens) num_layers)) tt eq_refl).
      cbv beta. rewrite bind_lift_ok. cbv beta.
      rewrite (bind_raise _ _ _ IndexError Hgrid).
      reflexivity. }
    split; [exact Hrun|].
    unfold calls at 1. rewrite Hrun. unfold fst.
    rewrite filter_app.
    pose proof (draw_rectangles_no_show colors num_layers (len tokens)
                  (Float 0.8) (Float (0.8 / 4))) as Hnone.
    unfold makes_no, calls in Hnone. rewrite Hgrid in Hnone.
    unfold fst in Hnone. rewrite Hnone. reflexivity.
Qed.

(** *** Arrows between tokens, for any token list (lines 69-83) *)

(** X8: for a layer count, a token count and columns within the range of
    floats, the horizontal arrow loop raises nothing and draws, for each
    of the [num_layers - 1] layers (none when [num_layers <= 1]), one
    arrow per token whose text is not ['[the]']: never more than one per
    layer and token. *)
Theorem token_arrow_count :
  forall (num_layers : Z) (toks : list string) (start_index : Z),
    num_layers <= float_overflow ->
    len toks <= float_overflow ->
    fits_float start_index ->
    fits_float (start_index + len toks) ->
    outcome (draw_token_arrows num_layers toks start_index) = inr tt
    /\ List.length (calls (draw_token_arrows num_layers toks start_index))
       = (Z.to_nat (num_layers - 1)
          * List.length (filter (fun t => negb (String.eqb t "[the]")) toks))%nat
    /\ (List.length (calls (draw_token_arrows num_layers toks start_index))
        <= Z.to_nat (num_layers - 1) * List.length toks)%nat.
Proof.
  intros num_layers toks start_index Hlayers Hlen Hlo Hhi.
  unfold outcome, calls.
  rewrite draw_token_arrows_run by assumption. unfold fst, snd.
  split; [reflexivity|].
  rewrite length_token_arrows. split; [reflexivity|].
  apply Nat.mul_le_mono_l, filter_length_le.
Qed.

(** The script's layers and tokens: 11 layers of 6 arrows. *)
Lemma token_arrow_count_witness :
  outcome (draw_token_arrows num_layers tokens 0) = inr tt
  /\ List.length (calls (draw_token_arrows num_layers tokens 0))
     = (Z.to_nat (num_layers - 1)
        * List.length (filter (fun t => negb (String.eqb t "[the]")) tokens))%nat.
Proof.
  destruct script_columns_fit as [Hlayers [Hlen [Hlo Hhi]]].
  destruct (token_arrow_count num_layers tokens 0 Hlayers Hlen Hlo Hhi)
    as [Hok [Hcount _]].
  exact (conj Hok Hcount).
Defined.

(** X9: for a layer count, a token count and columns within the range of
    floats, every horizontal arrow points at a column where a token label
    is drawn: the x coordinate of its head is the x coordinate of one of
    the labels the label loop draws for the same tokens and start
    index. *)
Theorem token_arrows_point_at_labels :
  forall (num_layers : Z) (toks : list string) (start_index : Z),
    num_layers <= float_overflow ->
    len toks <= float_overflow ->
    fits_float start_index ->
    fits_float (start_index + len toks) ->
    Forall (fun c => exists x,
                arrow_head_x c = Some x
                /\ In (Some x)
                      (map text_x
                           (calls (draw_token_labels toks start_index))))
           (calls (draw_token_arrows num_layers toks start_index)).
Proof.
  intros num_layers toks start_index Hlayers Hlen Hlo Hhi. unfold calls.
  rewrite draw_token_arrows_run, draw_token_labels_run by assumption.
  unfold fst.
  apply Forall_forall. intros c Hc.
  apply in_flat_map in Hc. destruct Hc as [layer [_ Hc]].
  apply in_flat_map in Hc. destruct Hc as [[i t] [Hit Hc]].
  unfold token_arrow_calls in Hc. simpl in Hc.
  destruct (String.eqb t "[the]"); [contradiction|].
  destruct Hc as [<-|[]].
  exists (add_value (Int (start_index + i)) (Float 0.5)).
  split; [reflexivity|].
  apply in_map_iff.
  exists (token_label (add_value (Int (start_index + i)) (Float 0.5)) t).
  split; [reflexivity|].
  apply in_map_iff. now exists (i, t).
Qed.

(** The script's layers, tokens and start index. *)
Lemma token_arrows_point_at_labels_witness :
  Forall (fun c => exists x,
              arrow_head_x c = Some x
              /\ In (Some x)
                    (map text_x (calls (draw_token_labels tokens 0))))
         (calls (draw_token_arrows num_layers tokens 0)).
Proof.
  destruct script_columns_fit as [Hlayers [Hlen [Hlo Hhi]]].
  exact (token_arrows_point_at_labels num_layers tokens 0
           Hlayers Hlen Hlo Hhi).
Defined.

(** X10: when the first token is not ['[the]'] and the start index is 0,
    every layer of the loop draws an arrow from column 0 to column 0: an
    arrow whose head and tail are the same point.  (The layer count and
    the token count are taken within the range of floats, so that the
    loop reaches every layer.) *)
Theorem first_token_self_arrow :
  forall (num_layers : Z) (first : string) (rest : list string) (layer : Z),
    first <> "[the]" ->
    In layer (range (num_layers - 1)) ->
    num_layers <= float_overflow ->
    fits_float (len (first :: rest)) ->
    exists c p,
      In c (calls (draw_token_arrows num_layers (first :: rest) 0))
      /\ arrow_ends c = Some (p, p)
      /\ p = (Float (nearest 0 + 0.5),
              Float (0.8 + nearest layer + nearest 0 / 20)).
Proof.
  intros num_layers first rest layer Hfirst Hlayer Hlayers Hlen.
  exists (token_arrow_call 0 (0.8 + nearest layer) 0 0).
  eexists. split; [|split; reflexivity].
  unfold calls.
  rewrite draw_token_arrows_run
    by (unfold fits_float in *; pose proof (len_nonneg (first :: rest));
        lia).
  unfold fst.
  apply in_flat_map. exists layer. split; [assumption|].
  unfold layer_token_arrows, enumerate. simpl.
  apply in_or_app. left.
  unfold token_arrow_calls. simpl.
  destruct (String.eqb_spec first "[the]") as [Heq|_]; [contradiction|].
  now left.
Qed.

(** One token ['[ e]'], two layers: the only arrow goes from column 0 to
    column 0. *)
Lemma first_token_self_arrow_witness :
  exists c p,
    In c (calls (draw_token_arrows 2 ["[ e]"] 0))
    /\ arrow_ends c = Some (p, p)
    /\ p = (Float (nearest 0 + 0.5), Float (0.8 + nearest 0 + nearest 0 / 20)).
Proof.
  apply (first_token_self_arrow 2 "[ e]" [] 0).
  - discriminate.
  - now left.
  - discriminate.
  - reflexivity.
Defined.

(** *** Arrows between layers, for any grid (lines 84-92) *)

(** X11: for a layer count and a token count within the range of floats,
    the vertical arrow loop raises nothing and draws one arrow per
    (layer, token) pair, none when either count is zero or negative; each
    arrow is vertical, its head and its tail having the same x. *)
Theorem layer_arrows_vertical :
  forall num_layers seq_length : Z,
    num_layers <= float_overflow ->
    seq_length <= float_overflow ->
    outcome (draw_layer_arrows num_layers seq_length) = inr tt
    /\ List.length (calls (draw_layer_arrows num_layers seq_length))
       = (Z.to_nat num_layers * Z.to_nat seq_length)%nat
    /\ Forall (fun c => exists x,
                  arrow_head_x c = Some x /\ arrow_tail_x c = Some x)
              (calls (draw_layer_arrows num_layers seq_length)).
Proof.
  intros num_layers seq_length Hlayers Htokens.
  unfold outcome, calls.
  rewrite draw_layer_arrows_run by assumption. unfold fst, snd.
  split; [reflexivity|].
  split; [apply length_layer_arrows|].
  apply Forall_forall. intros c Hc.
  apply in_flat_map in Hc. destruct Hc as [layer [_ Hc]].
  apply in_map_iff in Hc. destruct Hc as [token [<- _]].
  exists (add_value (Int token) (Float 0.5)). now split.
Qed.

(** The script's grid, and an empty one. *)
Lemma layer_arrows_vertical_witness :
  List.length (calls (draw_layer_arrows num_layers (len tokens)))
  = (Z.to_nat num_layers * Z.to_nat (len tokens))%nat
  /\ outcome (draw_layer_arrows (-3) 5) = inr tt.
Proof.
  destruct script_grid_fits as [Hlayers Htokens].
  split.
  - exact (proj1 (proj2 (layer_arrows_vertical num_layers (len tokens)
                           Hlayers Htokens))).
  - apply (layer_arrows_vertical (-3) 5); discriminate.
Defined.

(** *** Ticks and tick labels (lines 154-157) *)

(** X12: for any token count and layer count the closing statements raise
    nothing; the x ticks are exactly the multiples of 4 from 0 up to, not
    including, [seq_length]; the y ticks are 0 to [num_layers - 1]; and
    there are as many y tick labels as y ticks, the k-th being
    ['Layer k+1']. *)
Theorem ticks_and_labels :
  forall seq_length num_layers : Z,
    outcome (finish seq_length num_layers) = inr tt
    /\ exists xticks yticks labels,
         calls (finish seq_length num_layers)
         = [SetXticks xticks; SetYticks yticks; SetYticklabels labels;
            Grid false; TightLayout; Show]
         /\ (forall t, In t xticks <-> 0 <= t < seq_length /\ t mod 4 = 0)
         /\ yticks = range num_layers
         /\ List.length labels = List.length yticks
         /\ (forall k : nat,
               nth_error labels k
               = if Z.of_nat k <? num_layers
                 then Some (String.append "Layer " (str (Z.of_nat k + 1)))
                 else None).
Proof.
  intros seq_length num_layers.
  split; [reflexivity|].
  do 3 eexists.
  split; [reflexivity|].
  split; [|split; [apply range3_unit_step|split]].
  - intros t. unfold range3. rewrite in_range_from_step.
    replace (seq_length - 0 + 4 - 1) with (seq_length + 3) by lia.
    split.
    + intros [k [Hk ->]].
      split; [|now rewrite Z.add_0_l, Z.mod_mul].
      Z.to_euclidean_division_equations. lia.
    + intros [Ht Hmod].
      exists (Z.to_nat (t / 4)).
      Z.to_euclidean_division_equations. lia.
  - rewrite length_map, range3_unit_step. reflexivity.
  - intros k. rewrite nth_error_map. unfold range.
    rewrite nth_error_range_from.
    destruct (Nat.ltb_spec k (Z.to_nat num_layers));
      destruct (Z.ltb_spec (Z.of_nat k) num_layers); try lia; reflexivity.
Qed.

(* ================================================================= *)
(** ** Runs that overflow *)

(** An integer beyond the range of floats stops each loop at its first
    conversion, before anything is drawn. *)
Example overflowing_runs :
  draw_is_labels ["a"] [10 ^ 400] = ([], inl OverflowError)
  /\ draw_token_labels ["a"; "b"] (10 ^ 400) = ([], inl OverflowError)
  /\ draw_token_arrows 2 ["[the]"; "[ e]"] (10 ^ 400)
     = ([], inl OverflowError)
  /\ draw_rectangles (firstn 2 tab20) 3 2 (Int (- 10 ^ 400)) (Float 0.2)
     = ([], inl OverflowError).
Proof. repeat split. Qed.

(** Division of two integers is exact before it is rounded. *)
Example integer_division :
  truediv (Int 1) (Int 3) = inr (Float (1 / 3))
  /\ truediv (Int (10 ^ 400)) (Int (10 ^ 399)) = inr (Float 10)
  /\ truediv (Int (10 ^ 400)) (Int 3) = inl OverflowError
  /\ truediv (Int (10 ^ 400)) (Int 0) = inl ZeroDivisionError
  /\ truediv (Int (10 ^ 400)) (Float 0) = inl OverflowError
  /\ truediv (Float 1) (Int 0) = inl ZeroDivisionError.
Proof. repeat split. Qed.
